(** * Dashboard LAMDEC: the consuming layer of the CDA query engine

    A shallow embedding of the React front end (the components [Resumos]
    and [BuscaCDA]) together with the parts of the query and aggregation
    engine that the front end talks to.

    JavaScript numbers are read over exact arithmetic: a finite number is
    a rational ([Q]) and [NaN] is a value of its own.  A JSON object is a
    finite map from property names to values; a property that is not in
    the map reads as [undefined].  The non-ASCII letters of the labels
    are written in UTF-8 (['Em cobrança']). *)

From Stdlib Require Import ZArith QArith Qround Qfield Lia Ascii String.
From Stdlib Require Import Qabs.
From stdpp Require Import gmap strings list.

Local Open Scope Z_scope.

(** ** JavaScript values *)

Module Js.

(** A number: [NaN] or a finite value. *)
Inductive number : Type :=
| NaN
| Num (q : Q).

(** A JSON value as it arrives from the API, or as the front end
    computes it.  [undefined] is [None] in [option JsValue]. *)
Inductive JsValue : Type :=
| JNull
| JNumber (n : number)
| JString (s : string).

Definition zero : JsValue := JNumber (Num 0).

(** [a ?? b]: [b] when [a] is [null] or [undefined]. *)
Definition nullish (a : option JsValue) (b : JsValue) : JsValue :=
  match a with
  | None | Some JNull => b
  | Some v => v
  end.

(** Truthiness: [null], [0], [NaN] and the empty string are falsy. *)
Definition number_truthy (n : number) : bool :=
  match n with
  | NaN => false
  | Num q => negb (Qeq_bool q 0)
  end.

Definition truthy (v : JsValue) : bool :=
  match v with
  | JNull => false
  | JNumber n => number_truthy n
  | JString s => negb (String.eqb s "")
  end.

(** [a || b]: [b] when [a] is falsy ([undefined] is falsy). *)
Definition orElse (a : option JsValue) (b : JsValue) : JsValue :=
  match a with
  | None => b
  | Some v => if truthy v then v else b
  end.

(** [n > m] on numbers; every comparison with [NaN] is false. *)
Definition gt (n m : number) : bool :=
  match n, m with
  | Num a, Num b => negb (Qle_bool a b)
  | _, _ => false
  end.

Definition add (n m : number) : number :=
  match n, m with
  | Num a, Num b => Num (a + b)
  | _, _ => NaN
  end.

Definition mul (n m : number) : number :=
  match n, m with
  | Num a, Num b => Num (a * b)
  | _, _ => NaN
  end.

(** [n / m] over exact arithmetic.  A zero divisor leaves the finite
    numbers ([Infinity] or [NaN] in JavaScript); the front end guards
    its only division, so that case is folded into [NaN]. *)
Definition div (n m : number) : number :=
  match n, m with
  | Num a, Num b => if Qeq_bool b 0 then NaN else Num (a / b)
  | _, _ => NaN
  end.

(** [v === k] for a numeric constant [k]: no conversion takes place. *)
Definition strictEqNum (v : option JsValue) (k : Q) : bool :=
  match v with
  | Some (JNumber (Num q)) => Qeq_bool q k
  | _ => false
  end.

(** [Number(v)], also the implicit conversion of an operand.  The
    numeric reading of a string ([StringToNumber] of the language
    standard) is what the engine provides. *)
Definition ToNumber (StringToNumber : string -> number)
  (v : option JsValue) : number :=
  match v with
  | None => NaN
  | Some JNull => Num 0
  | Some (JNumber n) => n
  | Some (JString s) => StringToNumber s
  end.

Definition Number (StringToNumber : string -> number) (v : JsValue)
  : number :=
  ToNumber StringToNumber (Some v).

(** [Array.prototype.findIndex]: the index of the first element that
    satisfies [p], or [-1]. *)
Fixpoint findIndexFrom {A : Type} (p : A -> bool) (i : Z) (arr : list A)
  : Z :=
  match arr with
  | [] => -1
  | x :: rest => if p x then i else findIndexFrom p (i + 1) rest
  end.

Definition findIndex {A : Type} (p : A -> bool) (arr : list A) : Z :=
  findIndexFrom p 0 arr.

(** [arr.slice(start)]: a negative [start] counts from the end. *)
Definition slice {A : Type} (arr : list A) (start : Z) : list A :=
  let len := Z.of_nat (length arr) in
  let k := if start <? 0 then Z.max (len + start) 0 else Z.min start len in
  drop (Z.to_nat k) arr.

(** [arr.reduce(f, init)]. *)
Definition reduce {A B : Type} (f : B -> A -> B) (init : B) (arr : list A)
  : B :=
  fold_left f arr init.

(** The sum of a list of rationals. *)
Definition sumQ (l : list Q) : Q := foldr Qplus 0%Q l.

(** The outcome of an awaited request. *)
Inductive response (A : Type) : Type :=
| Ok (data : A)
| Failed.

Arguments Ok {A} data.
Arguments Failed {A}.

End Js.

Import Js.

(** A row of a summary table or of a search result: a JSON object. *)
Abbreviation row := (gmap string JsValue).

(** ** The request of [/cda/search] *)

Inductive SortField : Type := saldo | ano | score.
Inductive Direction : Type := asc | desc.

#[global] Instance SortField_eq_dec : EqDecision SortField.
Proof. solve_decision. Defined.

#[global] Instance Direction_eq_dec : EqDecision Direction.
Proof. solve_decision. Defined.

(** The [params] object that [buscar] hands to axios, which is also the
    filter request the engine receives.  [None] is [undefined]: axios
    leaves such a parameter out of the query string. *)
Module Params.

Record t : Type := mk {
  q : option string;
  natureza : option (list string);
  situacao : option (list string);
  min_ano : option Q;
  max_ano : option Q;
  min_saldo : option Q;
  max_saldo : option Q;
  min_score : option Q;
  max_score : option Q;
  sort_by : SortField;
  sort_dir : Direction;
  page : Z;
  page_size : Z
}.

(** The same request with another [situacao], and with another page. *)
Definition with_situacao (tokens : option (list string)) (p : t) : t :=
  mk (q p) (natureza p) tokens (min_ano p) (max_ano p) (min_saldo p)
     (max_saldo p) (min_score p) (max_score p) (sort_by p) (sort_dir p)
     (page p) (page_size p).

Definition with_page (page page_size : Z) (p : t) : t :=
  mk (q p) (natureza p) (situacao p) (min_ano p) (max_ano p) (min_saldo p)
     (max_saldo p) (min_score p) (max_score p) (sort_by p) (sort_dir p)
     page page_size.

End Params.

(** ** The query engine behind the API

    The FastAPI back end is not part of the front-end sources; the
    definitions of this part follow its specification. *)

Module Cda.

(** Modelled from the spec: the record type [CdaRecord] of the data
    model, which the back end loads from its JSON snapshot. *)
Record CdaRecord : Type := mk {
  num_cda : string;
  natureza : string;
  agrupamento_situacao : Z;
  ano : Z;
  qtde_anos_idade_cda : Z;
  valor_saldo_atualizado : Q;
  score : Q
}.

End Cda.

Abbreviation CdaRecord := Cda.CdaRecord.

Module Engine.

(** Modelled from the spec: the table of human labels of
    [agrupamento_situacao] (PredicateBuilder, glossary). *)
Definition label_code (label : string) : option Z :=
  if String.eqb label "Cancelada" then Some (-1)
  else if String.eqb label "Em cobrança" then Some 0
  else if String.eqb label "Quitada" then Some 1
  else None.

(** Modelled from the spec: the normalization of one [situacao] token of
    the missing PredicateBuilder.  The query surface hands over a set
    of strings; a token is a numeric code in [{-1,0,1}], written in
    digits, or a human label, and anything else is ignored. *)
Definition situacao_code (token : string) : option Z :=
  if String.eqb token "-1" then Some (-1)
  else if String.eqb token "0" then Some 0
  else if String.eqb token "1" then Some 1
  else label_code token.

(** Modelled from the spec: the internal code set of the missing
    PredicateBuilder, into which both encodings are merged. *)
Definition situacao_codes (tokens : list string) : gset Z :=
  list_to_set (omap situacao_code tokens).

(** Modelled from the spec: the case-insensitive substring match of the
    missing PredicateBuilder, on ASCII letters. *)
Definition lower_ascii (c : ascii) : ascii :=
  let n := nat_of_ascii c in
  if ((65 <=? n) && (n <=? 90))%nat then ascii_of_nat (n + 32) else c.

(** Modelled from the spec: the lower-case form of a string, for the
    case-insensitive match of the missing PredicateBuilder. *)
Fixpoint lower (s : string) : string :=
  match s with
  | EmptyString => EmptyString
  | String c rest => String (lower_ascii c) (lower rest)
  end.

(** Modelled from the spec: the substring match of the missing
    PredicateBuilder; [fragment] occurs somewhere in [s]. *)
Fixpoint contains (fragment s : string) : bool :=
  String.prefix fragment s
  || match s with
     | EmptyString => false
     | String _ rest => contains fragment rest
     end.

(** Modelled from the spec: the dimension [q] of the missing
    PredicateBuilder, a case-insensitive substring match against
    [num_cda]; an absent dimension is no constraint. *)
Definition match_q (p : Params.t) (r : CdaRecord) : bool :=
  match Params.q p with
  | None => true
  | Some fragment => contains (lower fragment) (lower (Cda.num_cda r))
  end.

(** Modelled from the spec: the dimension [natureza] of the missing
    PredicateBuilder; an empty or absent set is no constraint. *)
Definition match_natureza (p : Params.t) (r : CdaRecord) : bool :=
  match Params.natureza p with
  | None | Some [] => true
  | Some labels => bool_decide (Cda.natureza r ∈ labels)
  end.

(** Modelled from the spec: the dimension [situacao] of the missing
    PredicateBuilder, membership in the merged code set; an empty or
    absent set is no constraint. *)
Definition match_situacao (p : Params.t) (r : CdaRecord) : bool :=
  match Params.situacao p with
  | None | Some [] => true
  | Some tokens =>
      bool_decide (Cda.agrupamento_situacao r ∈ situacao_codes tokens)
  end.

(** Modelled from the spec: an inclusive range of the missing
    PredicateBuilder, open on a side whose bound is absent. *)
Definition in_range (lo hi : option Q) (v : Q) : bool :=
  match lo with None => true | Some l => Qle_bool l v end
  && match hi with None => true | Some h => Qle_bool v h end.

(** Modelled from the spec: the composite predicate of the missing
    PredicateBuilder, the conjunction of every present dimension. *)
Definition predicate (p : Params.t) (r : CdaRecord) : bool :=
  match_q p r
  && match_natureza p r
  && match_situacao p r
  && in_range (Params.min_ano p) (Params.max_ano p) (inject_Z (Cda.ano r))
  && in_range (Params.min_saldo p) (Params.max_saldo p)
       (Cda.valor_saldo_atualizado r)
  && in_range (Params.min_score p) (Params.max_score p) (Cda.score r).

(** Modelled from the spec: the field that [sort_by] maps to. *)
Definition sort_key (by_ : SortField) (r : CdaRecord) : Q :=
  match by_ with
  | saldo => Cda.valor_saldo_atualizado r
  | ano => inject_Z (Cda.ano r)
  | score => Cda.score r
  end.

(** Modelled from the spec: the order of the missing Sorter; [r1] may
    stand before [r2] by the mapped field in the requested
    direction, ties by [num_cda] ascending. *)
Definition precedes (by_ : SortField) (dir : Direction) (r1 r2 : CdaRecord)
  : bool :=
  match sort_key by_ r1 ?= sort_key by_ r2, dir with
  | Eq, _ => String.leb (Cda.num_cda r1) (Cda.num_cda r2)
  | Lt, asc | Gt, desc => true
  | Lt, desc | Gt, asc => false
  end%Q.

(** Modelled from the spec: one insertion of the missing Sorter, which
    keeps a sorted sequence sorted. *)
Fixpoint insert_sorted (by_ : SortField) (dir : Direction) (r : CdaRecord)
  (sorted : list CdaRecord) : list CdaRecord :=
  match sorted with
  | [] => [r]
  | x :: rest =>
      if precedes by_ dir r x then r :: x :: rest
      else x :: insert_sorted by_ dir r rest
  end.

(** Modelled from the spec: the missing Sorter. *)
Definition sort (by_ : SortField) (dir : Direction) (records : list CdaRecord)
  : list CdaRecord :=
  foldr (insert_sorted by_ dir) [] records.

(** Modelled from the spec: the missing Paginator.  [page < 1] is
    treated as [1] and [page_size < 1] as [1]; the items are the slice
    [[(page-1)*page_size, page*page_size)] clipped to the sequence, and
    the total is the length of the whole sequence. *)
Definition paginate {A : Type} (seq : list A) (page page_size : Z)
  : list A * Z :=
  let page := Z.max 1 page in
  let page_size := Z.max 1 page_size in
  (take (Z.to_nat page_size) (drop (Z.to_nat ((page - 1) * page_size)) seq),
   Z.of_nat (length seq)).

(** Modelled from the spec: the missing SearchEngine, which filters,
    then sorts, then paginates. *)
Definition search (records : list CdaRecord) (p : Params.t)
  : list CdaRecord * Z :=
  paginate
    (sort (Params.sort_by p) (Params.sort_dir p)
       (filter (fun r => predicate p r = true) records))
    (Params.page p) (Params.page_size p).

(** Modelled from the spec: the missing KpiCalculator, the count of the
    records with [agrupamento_situacao == 0]. *)
Definition volume_em_cobranca (records : list CdaRecord) : Z :=
  fold_left
    (fun n r => if Cda.agrupamento_situacao r =? 0 then n + 1 else n)
    records 0.

(** Modelled from the spec: the summary [quantidade_cdas] of the missing
    Aggregator, one row [{name, Quantidade}] per distinct [natureza]
    present in the data, with the count of its records. *)
Definition quantidade_cdas (records : list CdaRecord) : list row :=
  map
    (fun n =>
       {[ "name" := JString n;
          "Quantidade" :=
            JNumber
              (Num
                 (inject_Z
                    (Z.of_nat
                       (length
                          (filter (fun r => Cda.natureza r = n) records)))))
       ]})
    (remove_dups (map Cda.natureza records)).

(** Modelled from the spec: the defaults of the query surface. *)
Definition default_sort_by : SortField := saldo.
Definition default_sort_dir : Direction := desc.
Definition default_page : Z := 1.
Definition default_page_size : Z := 20.

End Engine.

(** ** [Resumos]: the summary dashboard *)

Module Resumos.

(** The body of the KPI endpoint; [total] is read as
    [totalRes.data.total]. *)
Record KpiBody : Type := mkKpiBody { total : option JsValue }.

(** The API as the dashboard sees it: [resumo nome] is the outcome of
    [GET /resumo/{nome}]. *)
Record Api : Type := mkApi {
  resumo : string -> response (list row);
  kpis_volume_em_cobranca : response KpiBody
}.

(** An API whose seven summaries arrive; [kpi] is the outcome of the
    request to [/kpis/volume_em_cobranca]. *)
Definition apiOf (tables : string -> list row) (kpi : response KpiBody)
  : Api :=
  mkApi (fun nome => Ok (tables nome)) kpi.

(** The [useState] cells of [Resumos] that hold data. *)
Record State : Type := mk {
  inscricoes : list row;
  inscricoesCanceladas : list row;
  inscricoesQuitadas : list row;
  montanteAcumulado : list row;
  quantidadeCdas : list row;
  saldoCdas : list row;
  distribuicaoCdas : list row;
  qtdEmCobrancaTotal : option JsValue
}.

Definition initial : State :=
  mk [] [] [] [] [] [] [] (Some JNull).

Definition setQtdEmCobrancaTotal (v : option JsValue) (st : State) : State :=
  mk (inscricoes st) (inscricoesCanceladas st) (inscricoesQuitadas st)
     (montanteAcumulado st) (quantidadeCdas st) (saldoCdas st)
     (distribuicaoCdas st) v.

(** [Promise.all]: the data of every request, or a failure as soon as
    one of them fails. *)
Fixpoint promiseAll {A : Type} (rs : list (response A))
  : response (list A) :=
  match rs with
  | [] => Ok []
  | Failed :: _ => Failed
  | Ok a :: rest =>
      match promiseAll rest with
      | Ok data => Ok (a :: data)
      | Failed => Failed
      end
  end.

(** How an [async] function ends. *)
Inductive completion : Type := Resolved | Rejected.

(** [fetchAll]: the seven summaries are awaited together and stored,
    then the KPI is requested inside [try]/[catch]. *)
Definition fetchAll (api : Api) (st : State) : State * completion :=
  match
    promiseAll
      [resumo api "inscricoes"; resumo api "inscricoes_canceladas";
       resumo api "inscricoes_quitadas"; resumo api "montante_acumulado";
       resumo api "quantidade_cdas"; resumo api "saldo_cdas";
       resumo api "distribuicao_cdas"]
  with
  | Ok [i; ic; iq; ma; qc; sc; dc] =>
      let st := mk i ic iq ma qc sc dc (qtdEmCobrancaTotal st) in
      match kpis_volume_em_cobranca api with
      | Ok totalRes => (setQtdEmCobrancaTotal (total totalRes) st, Resolved)
      | Failed => (st, Resolved)
      end
  | _ => (st, Rejected)
  end.

(** The state once the effect of the first render has run [fetchAll]. *)
Definition loaded (tables : string -> list row) (kpi : response KpiBody)
  : State :=
  fst (fetchAll (apiOf tables kpi) initial).

Section Computed.

Variable StringToNumber : string -> number.

(** The test of [trimLeadingZerosByKey]:
    [Number(item?.[numericKey] ?? 0) > 0]. *)
Definition positiveAt (numericKey : string) (item : row) : bool :=
  gt (Number StringToNumber (nullish (item !! numericKey) zero)) (Num 0).

Definition trimLeadingZerosByKey (arr : list row) (numericKey : string)
  : list row :=
  let idx := findIndex (positiveAt numericKey) arr in
  if 0 <? idx then slice arr idx else arr.

(** What a row holds under [numericKey], as [trimLeadingZerosByKey]
    reads it: exactly zero, or more than zero. *)
Definition zeroAt (numericKey : string) (item : row) : Prop :=
  exists v : Q,
    Number StringToNumber (nullish (item !! numericKey) zero) = Num v
    /\ (v == 0)%Q.

Definition aboveZeroAt (numericKey : string) (item : row) : Prop :=
  exists v : Q,
    Number StringToNumber (nullish (item !! numericKey) zero) = Num v
    /\ (0 < v)%Q.

Definition inscricoesTrim (st : State) : list row :=
  trimLeadingZerosByKey (inscricoes st) "Quantidade".

Definition canceladasTrim (st : State) : list row :=
  trimLeadingZerosByKey (inscricoesCanceladas st) "Quantidade".

Definition quitadasTrim (st : State) : list row :=
  trimLeadingZerosByKey (inscricoesQuitadas st) "Quantidade".

Definition pieQuantidadePercent (quantidadeCdas : list row) : list row :=
  let total :=
    reduce
      (fun s x =>
         add s (Number StringToNumber (orElse (x !! "Quantidade") zero)))
      (Num 0) quantidadeCdas in
  map
    (fun x =>
       <["pct" :=
           JNumber
             (if number_truthy total
              then mul (div (ToNumber StringToNumber (x !! "Quantidade"))
                          total) (Num 100)
              else Num 0)]> x)
    quantidadeCdas.

Definition pieSaldoPercent (saldoCdas : list row) : list row :=
  let total :=
    reduce
      (fun s x => add s (Number StringToNumber (orElse (x !! "Saldo") zero)))
      (Num 0) saldoCdas in
  map
    (fun x =>
       <["pct" :=
           JNumber
             (if number_truthy total
              then mul (div (ToNumber StringToNumber (x !! "Saldo")) total)
                     (Num 100)
              else Num 0)]> x)
    saldoCdas.

Definition saldoTotal (saldoCdas : list row) : number :=
  reduce
    (fun s x => add s (Number StringToNumber (orElse (x !! "Saldo") zero)))
    (Num 0) saldoCdas.

Definition qtdTotal (quantidadeCdas : list row) : number :=
  reduce
    (fun s x =>
       add s (Number StringToNumber (orElse (x !! "Quantidade") zero)))
    (Num 0) quantidadeCdas.

(** A row that holds a finite number under [key], as the rows
    [{name, Quantidade}] and [{name, Saldo}] of the category tables
    do, and that number. *)
Definition numericAt (key : string) (item : row) : Prop :=
  exists v : Q, item !! key = Some (JNumber (Num v)).

Definition valueAt (key : string) (item : row) : Q :=
  match item !! key with
  | Some (JNumber (Num v)) => v
  | _ => 0
  end.

(** The [pct] of a row of a pie, and the sum of the [pct] column. *)
Definition pctOf (item : row) : number :=
  ToNumber StringToNumber (item !! "pct").

Definition sumPct (pie : list row) : number :=
  reduce (fun s x => add s (pctOf x)) (Num 0) pie.

(** The common shape of [qtdTotal] and [saldoTotal], and of the two
    pies, by the key they read; [qtdTotal] is [totalBy "Quantidade"] and
    [pieSaldoPercent] is [pieBy "Saldo"]. *)
Definition totalBy (key : string) (arr : list row) : number :=
  reduce
    (fun s x => add s (Number StringToNumber (orElse (x !! key) zero)))
    (Num 0) arr.

Definition pieBy (key : string) (arr : list row) : list row :=
  map
    (fun x =>
       <["pct" :=
           JNumber
             (if number_truthy (totalBy key arr)
              then mul (div (ToNumber StringToNumber (x !! key))
                          (totalBy key arr)) (Num 100)
              else Num 0)]> x)
    arr.

(** The number behind the card 'Volume de CDAs em cobrança':
    [qtdEmCobrancaTotal ?? qtdTotal], before it is formatted. *)
Definition volumeKpi (st : State) : JsValue :=
  nullish (qtdEmCobrancaTotal st) (JNumber (qtdTotal (quantidadeCdas st))).

End Computed.

End Resumos.

(** ** [BuscaCDA]: the record browser *)

(** The body of [/cda/search]: [res.data]. *)
Module SearchBody.

Record t : Type := mk {
  items : list row;
  total : Z
}.

End SearchBody.

Module Busca.

(** The value of a numeric input: [number | '']. *)
Inductive numberOrBlank : Type :=
| Blank
| Filled (n : Q).

(** The [useState] cells of [BuscaCDA]. *)
Record State : Type := mk {
  q : string;
  natureza : list string;
  situacao : list string;
  minAno : numberOrBlank;
  maxAno : numberOrBlank;
  minSaldo : numberOrBlank;
  maxSaldo : numberOrBlank;
  minScore : numberOrBlank;
  maxScore : numberOrBlank;
  sortBy : SortField;
  sortDir : Direction;
  page : Z;
  pageSize : Z;
  items : list row;
  total : Z;
  loading : bool
}.

Definition initial : State :=
  mk "" [] [] Blank Blank Blank Blank Blank Blank saldo desc 1 20 [] 0 false.

Definition naturezas : list string :=
  ["IPTU"; "ISS"; "ITBI"; "Taxas"; "Multas"; "Outras"].

Definition situacoes : list string :=
  ["Cancelada"; "Em cobrança"; "Quitada"].


Definition setQ (v : string) (st : State) : State :=
  mk v (natureza st) (situacao st) (minAno st) (maxAno st) (minSaldo st)
     (maxSaldo st) (minScore st) (maxScore st) (sortBy st) (sortDir st)
     (page st) (pageSize st) (items st) (total st) (loading st).

Definition setPage (v : Z) (st : State) : State :=
  mk (q st) (natureza st) (situacao st) (minAno st) (maxAno st) (minSaldo st)
     (maxSaldo st) (minScore st) (maxScore st) (sortBy st) (sortDir st)
     v (pageSize st) (items st) (total st) (loading st).

Definition setPageSize (v : Z) (st : State) : State :=
  mk (q st) (natureza st) (situacao st) (minAno st) (maxAno st) (minSaldo st)
     (maxSaldo st) (minScore st) (maxScore st) (sortBy st) (sortDir st)
     (page st) v (items st) (total st) (loading st).

Definition setItems (v : list row) (st : State) : State :=
  mk (q st) (natureza st) (situacao st) (minAno st) (maxAno st) (minSaldo st)
     (maxSaldo st) (minScore st) (maxScore st) (sortBy st) (sortDir st)
     (page st) (pageSize st) v (total st) (loading st).

Definition setTotal (v : Z) (st : State) : State :=
  mk (q st) (natureza st) (situacao st) (minAno st) (maxAno st) (minSaldo st)
     (maxSaldo st) (minScore st) (maxScore st) (sortBy st) (sortDir st)
     (page st) (pageSize st) (items st) v (loading st).

Definition setLoading (v : bool) (st : State) : State :=
  mk (q st) (natureza st) (situacao st) (minAno st) (maxAno st) (minSaldo st)
     (maxSaldo st) (minScore st) (maxScore st) (sortBy st) (sortDir st)
     (page st) (pageSize st) (items st) (total st) v.

(** [x === '' ? undefined : x]. *)
Definition blankToUndefined (x : numberOrBlank) : option Q :=
  match x with
  | Blank => None
  | Filled n => Some n
  end.

(** The object literal [params] of [buscar], built from the state that
    the closure of [buscar] sees. *)
Definition params (st : State) : Params.t :=
  {| Params.q := if String.eqb (q st) "" then None else Some (q st);
     Params.natureza :=
       if (length (natureza st) =? 0)%nat then None else Some (natureza st);
     Params.situacao :=
       if (length (situacao st) =? 0)%nat then None else Some (situacao st);
     Params.min_ano := blankToUndefined (minAno st);
     Params.max_ano := blankToUndefined (maxAno st);
     Params.min_saldo := blankToUndefined (minSaldo st);
     Params.max_saldo := blankToUndefined (maxSaldo st);
     Params.min_score := blankToUndefined (minScore st);
     Params.max_score := blankToUndefined (maxScore st);
     Params.sort_by := sortBy st;
     Params.sort_dir := sortDir st;
     Params.page := page st;
     Params.page_size := pageSize st |}.

(** [buscar] as created by the render of [closure], run on the current
    state [st]: when the request fails the promise rejects before the
    last three updates. *)
Definition buscar (server : Params.t -> response SearchBody.t)
  (closure st : State) : State :=
  let st := setLoading true st in
  match server (params closure) with
  | Ok data =>
      setLoading false
        (setTotal (SearchBody.total data)
           (setItems (SearchBody.items data) st))
  | Failed => st
  end.

(** The effect on [[sortBy, sortDir, page, pageSize]]: after the first
    render, and after a render in which one of the four differs from the
    previous one, [buscar] of the new render runs. *)
Definition depsChanged (old new : State) : bool :=
  negb (bool_decide (sortBy old = sortBy new
                     ∧ sortDir old = sortDir new
                     ∧ page old = page new
                     ∧ pageSize old = pageSize new)).

Definition effect (server : Params.t -> response SearchBody.t)
  (old new : State) : State :=
  if depsChanged old new then buscar server new new else new.

Definition mount (server : Params.t -> response SearchBody.t) : State :=
  buscar server initial initial.

(** [Math.max(1, Math.ceil(total / pageSize))], for a positive
    [pageSize] (it starts at 20 and is set from [pageSizes] only). *)
Definition totalPages (st : State) : Z :=
  Z.max 1 (Qceiling (inject_Z (total st) / inject_Z (pageSize st))).

(** The cell of the column 'Situação'. *)
Definition situacaoCell (r : row) : string :=
  if strictEqNum (r !! "agrupamento_situacao") (-1) then "Cancelada"
  else if strictEqNum (r !! "agrupamento_situacao") 0 then "Em cobrança"
  else "Quitada".

(** The pagination controls.  [anterior] and [proxima] are the state
    updates of the two buttons, [anteriorDisabled] and [proximaDisabled]
    their [disabled] attributes. *)
Definition anterior (st : State) : State :=
  setPage (Z.max 1 (page st - 1)) st.

Definition proxima (st : State) : State :=
  setPage (Z.min (totalPages st) (page st + 1)) st.

Definition anteriorDisabled (st : State) : bool := page st <=? 1.

Definition proximaDisabled (st : State) : bool := totalPages st <=? page st.

Definition selectPageSize (v : Z) (st : State) : State :=
  setPage 1 (setPageSize v st).

(** What the user can do with the pagination controls and the button
    'Buscar'. *)
Inductive control : Type :=
| ClickAnterior
| ClickProxima
| SelectPageSize (v : Z)
| ClickBuscar.

(** The state update of a control; a disabled button does nothing. *)
Definition update (c : control) (st : State) : State :=
  match c with
  | ClickAnterior => if anteriorDisabled st then st else anterior st
  | ClickProxima => if proximaDisabled st then st else proxima st
  | SelectPageSize v => selectPageSize v st
  | ClickBuscar => setPage 1 st
  end.

(** One interaction: the state update, for 'Buscar' also the call of the
    [buscar] of the current render, and then the effect of the new
    render. *)
Definition handle (server : Params.t -> response SearchBody.t)
  (c : control) (st : State) : State :=
  match c with
  | ClickBuscar => effect server st (buscar server st (update ClickBuscar st))
  | _ => effect server st (update c st)
  end.

(** The invariant of the pagination controls. *)
Definition pageInRange (st : State) : Prop :=
  1 <= page st <= totalPages st.

End Busca.

(** ** Sample data *)

Module Sample.

(** A year series with one leading empty year. *)
Definition serie_2000_2002 : list row :=
  [ {[ "ano" := JNumber (Num 2000); "Quantidade" := JNumber (Num 0) ]};
    {[ "ano" := JNumber (Num 2001); "Quantidade" := JNumber (Num 3) ]};
    {[ "ano" := JNumber (Num 2002); "Quantidade" := JNumber (Num 0) ]} ].

(** Category tables: counts, balances, and tables without records. *)
Definition quantidade_cdas : list row :=
  [ {[ "name" := JString "IPTU"; "Quantidade" := JNumber (Num 1) ]};
    {[ "name" := JString "ISS"; "Quantidade" := JNumber (Num 3) ]} ].

Definition saldo_cdas : list row :=
  [ {[ "name" := JString "IPTU"; "Saldo" := JNumber (Num (25 # 2)) ]};
    {[ "name" := JString "ISS"; "Saldo" := JNumber (Num (75 # 2)) ]} ].

Definition quantidade_zerada : list row :=
  [ {[ "name" := JString "IPTU"; "Quantidade" := JNumber (Num 0) ]} ].

Definition saldo_zerado : list row :=
  [ {[ "name" := JString "IPTU"; "Saldo" := JNumber (Num 0) ]} ].

(** Three certificates with the balances 100, 50 and 10 and the codes
    -1, 0 and 1, and a dataset of twelve. *)
Definition cda_cancelada : CdaRecord :=
  Cda.mk "CDA-001" "IPTU" (-1) 2009 15 100 (1 # 2).

Definition cda_em_cobranca : CdaRecord :=
  Cda.mk "CDA-002" "ISS" 0 2015 9 50 (3 # 4).

Definition cda_quitada : CdaRecord :=
  Cda.mk "CDA-003" "IPTU" 1 2020 4 10 (1 # 4).

Definition tres_cdas : list CdaRecord :=
  [cda_cancelada; cda_em_cobranca; cda_quitada].

Definition doze_cdas : list CdaRecord :=
  tres_cdas ++ tres_cdas ++ tres_cdas ++ tres_cdas.

(** A reading of strings that finds no number in any of them. *)
Definition noNumber (s : string) : number := NaN.

(** An API that serves the summaries of [tres_cdas]. *)
Definition tables (nome : string) : list row :=
  if String.eqb nome "quantidade_cdas" then Engine.quantidade_cdas tres_cdas
  else [].

(** A search service with 45 records, none of which matches a text
    query, and the state of the form once its first answer is in. *)
Definition server (p : Params.t) : response SearchBody.t :=
  match Params.q p with
  | None => Ok (SearchBody.mk [] 45)
  | Some _ => Ok (SearchBody.mk [] 0)
  end.

Definition afterMount : Busca.State := Busca.mount server.

End Sample.

(** ** [Resumos]: tabs, the selected series and the pop-up *)

Module ResumosUi.

Inductive Modo : Type := percentual | absoluto.
Inductive Serie : Type := Inscritas | Canceladas | Quitadas.
Inductive ModalKey : Type := pareto | qtd | saldo | dist | serie.

(** The five charts that can be shown in the pop-up. *)
Inductive Chart : Type :=
| ParetoChart
| QuantidadePie
| SaldoPie
| DistribuicaoBar
| SerieModal.

#[global] Instance ModalKey_eq_dec : EqDecision ModalKey.
Proof. solve_decision. Defined.

(** The [useState] cells of [Resumos] that hold the toggles and the
    pop-up. *)
Record Ui : Type := mk {
  qtdModo : Modo;
  saldoModo : Modo;
  serieInscricao : Serie;
  modalOpen : bool;
  modalTitle : string;
  modalKey : option ModalKey
}.

Definition initial : Ui := mk percentual percentual Inscritas false "" None.

(** [serieAtual]: the trimmed series of the selected tab. *)
Definition serieAtual (StringToNumber : string -> number) (ui : Ui)
  (st : Resumos.State) : list row :=
  match serieInscricao ui with
  | Canceladas => Resumos.canceladasTrim StringToNumber st
  | Quitadas => Resumos.quitadasTrim StringToNumber st
  | Inscritas => Resumos.inscricoesTrim StringToNumber st
  end.

(** The endpoint whose table a tab charts. *)
Definition endpointOf (s : Serie) : string :=
  match s with
  | Inscritas => "inscricoes"
  | Canceladas => "inscricoes_canceladas"
  | Quitadas => "inscricoes_quitadas"
  end.

(** [openModal(title, key)]. *)
Definition openModal (title : string) (key : ModalKey) (ui : Ui) : Ui :=
  mk (qtdModo ui) (saldoModo ui) (serieInscricao ui) true title (Some key).

(** The [onClose] of the pop-up: the overlay and the close button. *)
Definition onClose (ui : Ui) : Ui :=
  mk (qtdModo ui) (saldoModo ui) (serieInscricao ui) false (modalTitle ui)
     None.

(** [onEsc]: the [keydown] listener on the window. *)
Definition onEsc (key : string) (ui : Ui) : Ui :=
  if String.eqb key "Escape"
  then mk (qtdModo ui) (saldoModo ui) (serieInscricao ui) false
         (modalTitle ui) (modalKey ui)
  else ui.

Definition setQtdModo (m : Modo) (ui : Ui) : Ui :=
  mk m (saldoModo ui) (serieInscricao ui) (modalOpen ui) (modalTitle ui)
     (modalKey ui).

Definition setSaldoModo (m : Modo) (ui : Ui) : Ui :=
  mk (qtdModo ui) m (serieInscricao ui) (modalOpen ui) (modalTitle ui)
     (modalKey ui).

Definition setSerieInscricao (s : Serie) (ui : Ui) : Ui :=
  mk (qtdModo ui) (saldoModo ui) s (modalOpen ui) (modalTitle ui)
     (modalKey ui).

(** The title of the card of a chart, which its [onBodyClick] also
    hands to [openModal]. *)
Definition cardTitle (key : ModalKey) : string :=
  match key with
  | pareto => "Diagrama de Pareto do saldo de CDAs"
  | qtd => "Quantidade de CDAs em cobrança"
  | saldo => "Saldo atualizado de CDAs em cobrança"
  | dist => "Percentual de CDAs por situação"
  | serie => "Inscrições na dívida ativa por ano"
  end.

(** What the user and the window can do to these cells. *)
Inductive event : Type :=
| BodyClick (key : ModalKey)
| CloseClick
| KeyDown (key : string)
| QtdModoClick (m : Modo)
| SaldoModoClick (m : Modo)
| SerieClick (s : Serie).

Definition step (ui : Ui) (e : event) : Ui :=
  match e with
  | BodyClick key => openModal (cardTitle key) key ui
  | CloseClick => onClose ui
  | KeyDown key => onEsc key ui
  | QtdModoClick m => setQtdModo m ui
  | SaldoModoClick m => setSaldoModo m ui
  | SerieClick s => setSerieInscricao s ui
  end.

Definition run (events : list event) (ui : Ui) : Ui :=
  fold_left step events ui.

(** The children of [Modal]: each chart is there when [modalKey] is its
    key. *)
Definition modalChildren (ui : Ui) : list Chart :=
  (if bool_decide (modalKey ui = Some pareto) then [ParetoChart] else [])
  ++ (if bool_decide (modalKey ui = Some qtd) then [QuantidadePie] else [])
  ++ (if bool_decide (modalKey ui = Some saldo) then [SaldoPie] else [])
  ++ (if bool_decide (modalKey ui = Some dist) then [DistribuicaoBar] else [])
  ++ (if bool_decide (modalKey ui = Some serie) then [SerieModal] else []).

(** [Modal]: nothing when it is not open, else its title and children. *)
Definition Modal (open : bool) (title : string) (children : list Chart)
  : option (string * list Chart) :=
  if negb open then None else Some (title, children).

Definition modalView (ui : Ui) : option (string * list Chart) :=
  Modal (modalOpen ui) (modalTitle ui) (modalChildren ui).


End ResumosUi.


(** Two states of the cells that differ at most in the key of a closed
    pop-up. *)
Definition sameButStaleKey (a b : ResumosUi.Ui) : Prop :=
  ResumosUi.qtdModo a = ResumosUi.qtdModo b
  /\ ResumosUi.saldoModo a = ResumosUi.saldoModo b
  /\ ResumosUi.serieInscricao a = ResumosUi.serieInscricao b
  /\ ResumosUi.modalOpen a = ResumosUi.modalOpen b
  /\ ResumosUi.modalTitle a = ResumosUi.modalTitle b
  /\ (ResumosUi.modalOpen a = false
      \/ ResumosUi.modalKey a = ResumosUi.modalKey b).

(** A row that holds a number that is not negative under [key], as the
    counts and balances of the category tables are. *)
Definition nonNegativeAt (key : string) (x : row) : Prop :=
  exists v : Q, x !! key = Some (JNumber (Num v)) /\ (0 <= v)%Q.

(** ** [Resumos]: the requests of [fetchAll], the lines and the colours *)

Module ResumosData.

(** The names of the seven summaries, in the order of [Promise.all]. *)
Definition endpoints : list string :=
  ["inscricoes"; "inscricoes_canceladas"; "inscricoes_quitadas";
   "montante_acumulado"; "quantidade_cdas"; "saldo_cdas";
   "distribuicao_cdas"].

Definition COLORS : list string :=
  ["#0088FE"; "#00C49F"; "#FFBB28"; "#FF8042"; "#aa66cc"; "#ff4d4f"].

(** [COLORS[index % COLORS.length]], the fill of the cell and the stroke
    of the line with that index; [None] is [undefined]. *)
Definition colorAt (index : nat) : option string :=
  COLORS !! (index mod length COLORS)%nat.

(** [montanteKeys]: the keys of the first row of the Pareto table but
    ['Percentual'].  [ObjectKeys] is [Object.keys], whose order is the
    engine's. *)
Definition montanteKeys (ObjectKeys : row -> list string)
  (montanteAcumulado : list row) : list string :=
  match montanteAcumulado with
  | [] => []
  | first :: _ =>
      filter (fun k => negb (String.eqb k "Percentual") = true)
        (ObjectKeys first)
  end.

(** The lines of the Pareto chart: one per key, with its stroke. *)
Definition paretoLines (ObjectKeys : row -> list string)
  (montanteAcumulado : list row) : list (string * option string) :=
  imap (fun i key => (key, colorAt i))
    (montanteKeys ObjectKeys montanteAcumulado).

End ResumosData.

(** ** [App]: the tabs and the theme *)

Module App.

Inductive Tab : Type := resumos | busca.

(** The [useState] cells of [App]. *)
Record State : Type := mk {
  tab : Tab;
  theme : string;
  themeIconOk : bool
}.

(** What [App] reads and writes outside React: [localStorage] and the
    attribute [data-theme] of the document element. *)
Record Browser : Type := mkBrowser {
  localStorage : gmap string string;
  dataTheme : option string
}.

(** [localStorage.getItem('theme') || 'dark']. *)
Definition storedTheme (storage : gmap string string) : string :=
  match storage !! "theme" with
  | Some s => if String.eqb s "" then "dark" else s
  | None => "dark"
  end.

Definition initial (storage : gmap string string) : State :=
  mk resumos (storedTheme storage) true.

(** The effect on [[theme]]. *)
Definition themeEffect (st : State) (b : Browser) : Browser :=
  mkBrowser (<["theme" := theme st]> (localStorage b)) (Some (theme st)).

Definition setTab (t : Tab) (st : State) : State :=
  mk t (theme st) (themeIconOk st).

(** [setTheme(t => (t === 'dark' ? 'light' : 'dark'))]. *)
Definition toggleTheme (st : State) : State :=
  mk (tab st) (if String.eqb (theme st) "dark" then "light" else "dark")
     (themeIconOk st).

Definition setThemeIconOk (v : bool) (st : State) : State :=
  mk (tab st) (theme st) v.

Inductive event : Type :=
| TabClick (t : Tab)
| ThemeClick
| IconError.

Definition update (e : event) (st : State) : State :=
  match e with
  | TabClick t => setTab t st
  | ThemeClick => toggleTheme st
  | IconError => setThemeIconOk false st
  end.

(** One event: the state update, then the effect when [theme]
    changed. *)
Definition step (w : State * Browser) (e : event) : State * Browser :=
  let st := update e (fst w) in
  (st,
   if String.eqb (theme (fst w)) (theme st) then snd w
   else themeEffect st (snd w)).

(** The first render and its effect, on a browser with the storage
    [storage]. *)
Definition mount (storage : gmap string string) (attribute : option string)
  : State * Browser :=
  (initial storage, themeEffect (initial storage)
                      (mkBrowser storage attribute)).

Definition run (events : list event) (w : State * Browser)
  : State * Browser :=
  fold_left step events w.

End App.

(** ** Further sample data *)

Module Cases.

(** A count table with a row that lacks its count, and one whose count
    arrived as text. *)
Definition sem_quantidade : list row :=
  [ {[ "name" := JString "IPTU"; "Quantidade" := JNumber (Num 2) ]};
    {[ "name" := JString "ISS" ]} ].

Definition quantidade_texto : list row :=
  [ {[ "name" := JString "IPTU"; "Quantidade" := JNumber (Num 2) ]};
    {[ "name" := JString "ISS"; "Quantidade" := JString "muitas" ]} ].

Definition saldo_sem_valor : list row :=
  [ {[ "name" := JString "IPTU"; "Saldo" := JNumber (Num 2) ]};
    {[ "name" := JString "ISS" ]} ].

Definition saldo_texto : list row :=
  [ {[ "name" := JString "IPTU"; "Saldo" := JString "n/d" ]} ].

(** An API on which the request for [saldo_cdas] fails. *)
Definition api_sem_saldo : Resumos.Api :=
  Resumos.mkApi
    (fun nome =>
       if String.eqb nome "saldo_cdas" then Failed
       else Ok (Sample.tables nome))
    (Ok (Resumos.mkKpiBody (Some (JNumber (Num 1))))).

(** A reading of [Object.keys] (in the order of the map), and a Pareto
    table whose second row has a column that the first lacks. *)
Definition keysOf (r : row) : list string := (map_to_list r).*1.

Definition montante : list row :=
  [ {[ "Percentual" := JNumber (Num 1); "IPTU" := JNumber (Num 40) ]};
    {[ "Percentual" := JNumber (Num 2); "IPTU" := JNumber (Num 55);
       "ISS" := JNumber (Num 10) ]} ].

(** A browser that stored a theme the application does not know. *)
Definition storage_azul : gmap string string :=
  {[ "theme" := "azul"; "lang" := "pt-BR" ]}.

(** A search service that is down, and one that answers every request
    with two records, the second of which has no score. *)
Definition server_fora (p : Params.t) : response SearchBody.t := Failed.

Definition linha_ok : row :=
  {[ "numCDA" := JString "CDA-001"; "natureza" := JString "IPTU";
     "agrupamento_situacao" := JNumber (Num 0);
     "qtde_anos_idade_cda" := JNumber (Num 9);
     "valor_saldo_atualizado" := JNumber (Num 50);
     "score" := JNumber (Num (3 # 4)) ]}.

Definition linha_sem_score : row :=
  {[ "numCDA" := JString "CDA-002"; "natureza" := JString "ISS";
     "agrupamento_situacao" := JNumber (Num 1) ]}.

Definition server_sem_score (p : Params.t) : response SearchBody.t :=
  Ok (SearchBody.mk [linha_ok; linha_sem_score] 2).

(** Renderings of a balance and of a score that show nothing. *)
Definition semTexto (v : option JsValue) : string := "".
Definition semDigitos (n : number) : string := "".

End Cases.

(** The state of [App] and of the browser agree on the theme: the
    storage and the attribute hold the current theme, which is not
    empty, and the other entries of the storage are those of
    [storage]. *)
Definition themeStored (storage : gmap string string)
  (w : App.State * App.Browser) : Prop :=
  App.localStorage (snd w) !! "theme" = Some (App.theme (fst w))
  /\ App.dataTheme (snd w) = Some (App.theme (fst w))
  /\ App.theme (fst w) <> ""
  /\ forall k : string,
      k <> "theme" -> App.localStorage (snd w) !! k = storage !! k.

(** ** The formatters of the KPI cards *)

Module Format.

(** [Math.abs(v)], [v < w] and [v >= w] on numbers. *)
Definition abs (v : number) : number :=
  match v with
  | NaN => NaN
  | Num q => Num (Qabs q)
  end.

Definition lt (v w : number) : bool :=
  match v, w with
  | Num a, Num b => negb (Qle_bool b a)
  | _, _ => false
  end.

Definition ge (v w : number) : bool :=
  match v, w with
  | Num a, Num b => Qle_bool b a
  | _, _ => false
  end.

Section Intl.

(** The three formatters of [Intl.NumberFormat('pt-BR', ...)] that the
    file builds: [nf] with at most one fraction digit, [formatCurrency]
    in BRL, and the plain one. *)
Variable nf : number -> string.
Variable formatCurrency : number -> string.
Variable formatPlain : number -> string.

Definition formatCurrencyMagnitude (v : number) : string :=
  let abs := abs v in
  let sign := if lt v (Num 0) then "-" else "" in
  if ge abs (Num 1000000000000)
  then sign +:+ "R$ " +:+ nf (div abs (Num 1000000000000)) +:+ " trilhões"
  else if ge abs (Num 1000000000)
  then sign +:+ "R$ " +:+ nf (div abs (Num 1000000000)) +:+ " bilhões"
  else if ge abs (Num 1000000)
  then
    let q := div abs (Num 1000000) in
    let word := if ge q (Num 2) then "milhões" else "milhão" in
    sign +:+ "R$ " +:+ nf q +:+ " " +:+ word
  else if ge abs (Num 1000)
  then sign +:+ "R$ " +:+ nf (div abs (Num 1000)) +:+ " mil"
  else formatCurrency v.

Definition formatNumberMagnitude (v : number) : string :=
  let abs := abs v in
  let sign := if lt v (Num 0) then "-" else "" in
  if ge abs (Num 1000000000000)
  then sign +:+ nf (div abs (Num 1000000000000)) +:+ " trilhões"
  else if ge abs (Num 1000000000)
  then sign +:+ nf (div abs (Num 1000000000)) +:+ " bilhões"
  else if ge abs (Num 1000000)
  then
    let q := div abs (Num 1000000) in
    let word := if ge q (Num 2) then "milhões" else "milhão" in
    sign +:+ nf q +:+ " " +:+ word
  else if ge abs (Num 1000)
  then sign +:+ nf (div abs (Num 1000)) +:+ " mil"
  else formatPlain v.

End Intl.

(** The unit of a magnitude and its word: the largest of the four units
    that the absolute value reaches, if any. *)
Definition unitOf (a : Q) : option (Q * string) :=
  if Qle_bool 1000000000000 a then Some (1000000000000, "trilhões")%Q
  else if Qle_bool 1000000000 a then Some (1000000000, "bilhões")%Q
  else if Qle_bool 2000000 a then Some (1000000, "milhões")%Q
  else if Qle_bool 1000000 a then Some (1000000, "milhão")%Q
  else if Qle_bool 1000 a then Some (1000, "mil")%Q
  else None.

End Format.

(** ** [BuscaCDA]: the inputs of the form and the table *)

Module BuscaForm.

Definition setNatureza (v : list string) (st : Busca.State) : Busca.State :=
  Busca.mk (Busca.q st) v (Busca.situacao st) (Busca.minAno st)
    (Busca.maxAno st) (Busca.minSaldo st) (Busca.maxSaldo st)
    (Busca.minScore st) (Busca.maxScore st) (Busca.sortBy st)
    (Busca.sortDir st) (Busca.page st) (Busca.pageSize st) (Busca.items st)
    (Busca.total st) (Busca.loading st).

Definition setSituacao (v : list string) (st : Busca.State) : Busca.State :=
  Busca.mk (Busca.q st) (Busca.natureza st) v (Busca.minAno st)
    (Busca.maxAno st) (Busca.minSaldo st) (Busca.maxSaldo st)
    (Busca.minScore st) (Busca.maxScore st) (Busca.sortBy st)
    (Busca.sortDir st) (Busca.page st) (Busca.pageSize st) (Busca.items st)
    (Busca.total st) (Busca.loading st).

(** The six numeric bounds of the form. *)
Inductive Bound : Type :=
| MinAno | MaxAno | MinSaldo | MaxSaldo | MinScore | MaxScore.

Definition setBound (b : Bound) (v : Busca.numberOrBlank) (st : Busca.State)
  : Busca.State :=
  Busca.mk (Busca.q st) (Busca.natureza st) (Busca.situacao st)
    (match b with MinAno => v | _ => Busca.minAno st end)
    (match b with MaxAno => v | _ => Busca.maxAno st end)
    (match b with MinSaldo => v | _ => Busca.minSaldo st end)
    (match b with MaxSaldo => v | _ => Busca.maxSaldo st end)
    (match b with MinScore => v | _ => Busca.minScore st end)
    (match b with MaxScore => v | _ => Busca.maxScore st end)
    (Busca.sortBy st) (Busca.sortDir st) (Busca.page st) (Busca.pageSize st)
    (Busca.items st) (Busca.total st) (Busca.loading st).

Definition setSortBy (v : SortField) (st : Busca.State) : Busca.State :=
  Busca.mk (Busca.q st) (Busca.natureza st) (Busca.situacao st)
    (Busca.minAno st) (Busca.maxAno st) (Busca.minSaldo st)
    (Busca.maxSaldo st) (Busca.minScore st) (Busca.maxScore st) v
    (Busca.sortDir st) (Busca.page st) (Busca.pageSize st) (Busca.items st)
    (Busca.total st) (Busca.loading st).

Definition setSortDir (v : Direction) (st : Busca.State) : Busca.State :=
  Busca.mk (Busca.q st) (Busca.natureza st) (Busca.situacao st)
    (Busca.minAno st) (Busca.maxAno st) (Busca.minSaldo st)
    (Busca.maxSaldo st) (Busca.minScore st) (Busca.maxScore st)
    (Busca.sortBy st) v (Busca.page st) (Busca.pageSize st) (Busca.items st)
    (Busca.total st) (Busca.loading st).

(** The [onChange] of an input of the form, with the value it hands to
    its setter: the text, the selected options, the number or [''] of a
    numeric input, the option of a select. *)
Inductive change : Type :=
| ChangeQ (v : string)
| ChangeNatureza (v : list string)
| ChangeSituacao (v : list string)
| ChangeBound (b : Bound) (v : Busca.numberOrBlank)
| ChangeSortBy (v : SortField)
| ChangeSortDir (v : Direction).

Definition apply (c : change) (st : Busca.State) : Busca.State :=
  match c with
  | ChangeQ v => Busca.setQ v st
  | ChangeNatureza v => setNatureza v st
  | ChangeSituacao v => setSituacao v st
  | ChangeBound b v => setBound b v st
  | ChangeSortBy v => setSortBy v st
  | ChangeSortDir v => setSortDir v st
  end.

(** A change of the form: the state update, then the effect of the new
    render. *)
Definition handleChange (server : Params.t -> response SearchBody.t)
  (c : change) (st : Busca.State) : Busca.State :=
  Busca.effect server st (apply c st).

(** The changes of the filters, as opposed to those of the order. *)
Definition isFilter (c : change) : bool :=
  match c with
  | ChangeSortBy _ | ChangeSortDir _ => false
  | _ => true
  end.

(** A row of the table: the six cells of [<tr>]. *)
Record Linha : Type := mkLinha {
  numCDA : option JsValue;
  natureza : option JsValue;
  situacao : string;
  idade : option JsValue;
  saldo : string;
  score : string
}.

(** The body of the table. *)
Inductive Tbody : Type :=
| Carregando
| Linhas (rows : list Linha).

Section Render.

(** [formatCurrency] applied to a property of a row, and
    [Number.prototype.toFixed] with three digits. *)
Variable formatCurrency : option JsValue -> string.
Variable toFixed3 : number -> string.

(** One [<tr>].  [row.score.toFixed(3)] throws a [TypeError] unless
    [score] is a number: [None] is that exception. *)
Definition renderRow (r : row) : option Linha :=
  match r !! "score" with
  | Some (JNumber n) =>
      Some (mkLinha (r !! "numCDA") (r !! "natureza") (Busca.situacaoCell r)
              (r !! "qtde_anos_idade_cda")
              (formatCurrency (r !! "valor_saldo_atualizado"))
              (toFixed3 n))
  | _ => None
  end.

(** [<tbody>]: the loading row, or one row per item; [None] when the
    rendering of an item throws. *)
Definition tbody (st : Busca.State) : option Tbody :=
  if Busca.loading st then Some Carregando
  else Linhas <$> mapM renderRow (Busca.items st).

End Render.

End BuscaForm.

(** * Properties *)

(** ** Arrays *)

Section ArrayFacts.

Context {A : Type} (p : A -> bool).

Lemma findIndexFrom_none (i : Z) (arr : list A) :
  Forall (fun x => p x = false) arr -> findIndexFrom p i arr = -1.
Proof.
  intros Hall. revert i.
  induction Hall as [|x rest Hx _ IH]; intros i; simpl.
  - reflexivity.
  - rewrite Hx. apply IH.
Qed.

Lemma findIndexFrom_first (i : Z) (pre : list A) (x : A) (post : list A) :
  Forall (fun y => p y = false) pre ->
  p x = true ->
  findIndexFrom p i (pre ++ x :: post) = i + Z.of_nat (length pre).
Proof.
  intros Hpre Hx. revert i.
  induction Hpre as [|y pre Hy _ IH]; intros i; simpl.
  - rewrite Hx. lia.
  - rewrite Hy, IH. lia.
Qed.

Lemma slice_app_length (pre post : list A) :
  slice (pre ++ post) (Z.of_nat (length pre)) = post.
Proof.
  unfold slice.
  destruct (Z.ltb_spec (Z.of_nat (length pre)) 0) as [Hneg|_]; [lia|].
  rewrite length_app, Z.min_l, Nat2Z.id by lia.
  apply drop_app_length.
Qed.

End ArrayFacts.

(** ** [Resumos]: trimming the year series *)

Section TrimFacts.

Variable StringToNumber : string -> number.

Lemma zeroAt_not_positive (key : string) (item : row) :
  Resumos.zeroAt StringToNumber key item ->
  Resumos.positiveAt StringToNumber key item = false.
Proof.
  intros (v & Hv & Hzero). unfold Resumos.positiveAt. rewrite Hv. simpl.
  apply negb_false_iff, Qle_bool_iff. rewrite Hzero. apply Qle_refl.
Qed.

Lemma aboveZeroAt_positive (key : string) (item : row) :
  Resumos.aboveZeroAt StringToNumber key item ->
  Resumos.positiveAt StringToNumber key item = true.
Proof.
  intros (v & Hv & Hpos). unfold Resumos.positiveAt. rewrite Hv. simpl.
  apply negb_true_iff. destruct (Qle_bool v 0) eqn:Hle; [|reflexivity].
  apply Qle_bool_iff in Hle. exfalso. exact (Qlt_not_le _ _ Hpos Hle).
Qed.

Lemma trim_first_positive (key : string) (pre : list row) (x : row)
  (post : list row) :
  Forall (fun y => Resumos.positiveAt StringToNumber key y = false) pre ->
  Resumos.positiveAt StringToNumber key x = true ->
  Resumos.trimLeadingZerosByKey StringToNumber (pre ++ x :: post) key
  = x :: post.
Proof.
  intros Hpre Hx. unfold Resumos.trimLeadingZerosByKey, findIndex.
  rewrite (findIndexFrom_first _ 0 pre x post Hpre Hx), Z.add_0_l.
  destruct pre as [|y pre]; [reflexivity|].
  destruct (Z.ltb_spec 0 (Z.of_nat (length (y :: pre)))) as [_|Hle].
  - apply slice_app_length.
  - simpl in Hle. lia.
Qed.

Lemma trim_no_positive (key : string) (arr : list row) :
  Forall (fun y => Resumos.positiveAt StringToNumber key y = false) arr ->
  Resumos.trimLeadingZerosByKey StringToNumber arr key = arr.
Proof.
  intros Hall. unfold Resumos.trimLeadingZerosByKey, findIndex.
  rewrite (findIndexFrom_none _ 0 arr Hall). reflexivity.
Qed.

(** C1.  [trimLeadingZerosByKey] with the key ['Quantidade'] drops
    exactly the leading rows whose Quantidade is zero: when the rows
    before the first row with Quantidade > 0 all hold zero, the result
    is the suffix that starts at that row; an array whose first row
    already has Quantidade > 0 comes back unchanged; and an array in
    which every row holds zero also comes back unchanged (all rows are
    kept, none is trimmed). *)
Theorem trimLeadingZerosByKey_Quantidade (arr : list row) :
  (forall (pre : list row) (x : row) (post : list row),
      arr = pre ++ x :: post ->
      Forall (Resumos.zeroAt StringToNumber "Quantidade") pre ->
      Resumos.aboveZeroAt StringToNumber "Quantidade" x ->
      Resumos.trimLeadingZerosByKey StringToNumber arr "Quantidade"
      = x :: post)
  /\ (forall (x : row) (rest : list row),
         arr = x :: rest ->
         Resumos.aboveZeroAt StringToNumber "Quantidade" x ->
         Resumos.trimLeadingZerosByKey StringToNumber arr "Quantidade" = arr)
  /\ (Forall (Resumos.zeroAt StringToNumber "Quantidade") arr ->
      Resumos.trimLeadingZerosByKey StringToNumber arr "Quantidade" = arr).
Proof.
  split; [|split].
  - intros pre x post -> Hpre Hx. apply trim_first_positive.
    + eapply Forall_impl; [exact Hpre|]. intros y. apply zeroAt_not_positive.
    + apply aboveZeroAt_positive, Hx.
  - intros x rest -> Hx.
    apply (trim_first_positive "Quantidade" [] x rest); [constructor|].
    apply aboveZeroAt_positive, Hx.
  - intros Hall. apply trim_no_positive.
    eapply Forall_impl; [exact Hall|]. intros y. apply zeroAt_not_positive.
Qed.

(** The three memoised series of [Resumos] are the year series of the
    state, each trimmed by the key ['Quantidade']. *)
Lemma series_trimmed_by_Quantidade (st : Resumos.State) :
  Resumos.inscricoesTrim StringToNumber st
  = Resumos.trimLeadingZerosByKey StringToNumber (Resumos.inscricoes st)
      "Quantidade"
  /\ Resumos.canceladasTrim StringToNumber st
     = Resumos.trimLeadingZerosByKey StringToNumber
         (Resumos.inscricoesCanceladas st) "Quantidade"
  /\ Resumos.quitadasTrim StringToNumber st
     = Resumos.trimLeadingZerosByKey StringToNumber
         (Resumos.inscricoesQuitadas st) "Quantidade".
Proof. repeat split. Qed.

End TrimFacts.

Lemma trimLeadingZerosByKey_Quantidade_witness :
  Resumos.trimLeadingZerosByKey Sample.noNumber Sample.serie_2000_2002
    "Quantidade"
  = drop 1 Sample.serie_2000_2002
  /\ Resumos.trimLeadingZerosByKey Sample.noNumber
       (drop 1 Sample.serie_2000_2002) "Quantidade"
     = drop 1 Sample.serie_2000_2002
  /\ Resumos.trimLeadingZerosByKey Sample.noNumber
       (take 1 Sample.serie_2000_2002) "Quantidade"
     = take 1 Sample.serie_2000_2002.
Proof.
  split; [|split].
  - apply (proj1 (trimLeadingZerosByKey_Quantidade Sample.noNumber
                    Sample.serie_2000_2002)
             (take 1 Sample.serie_2000_2002)).
    + reflexivity.
    + repeat constructor. exists 0%Q. split; reflexivity.
    + exists 3%Q. split; reflexivity.
  - eapply (proj1 (proj2 (trimLeadingZerosByKey_Quantidade Sample.noNumber
                            (drop 1 Sample.serie_2000_2002)))).
    + reflexivity.
    + exists 3%Q. split; reflexivity.
  - apply (proj2 (proj2 (trimLeadingZerosByKey_Quantidade Sample.noNumber
                           (take 1 Sample.serie_2000_2002)))).
    repeat constructor. exists 0%Q. split; reflexivity.
Defined.

(** ** [Resumos]: the percentages of the pies *)

Section PieFacts.

Variable StringToNumber : string -> number.

Lemma term_numeric (key : string) (x : row) :
  Resumos.numericAt key x ->
  exists v : Q,
    Number StringToNumber (orElse (x !! key) zero) = Num v
    /\ (v == Resumos.valueAt key x)%Q.
Proof.
  intros [v Hv]. unfold Resumos.valueAt. rewrite Hv. simpl.
  destruct (Qeq_bool v 0) eqn:Hz; simpl.
  - exists 0%Q. split; [reflexivity|].
    apply Qeq_bool_iff in Hz. symmetry. exact Hz.
  - exists v. split; [reflexivity|]. reflexivity.
Qed.

Lemma fold_total_numeric (key : string) (arr : list row) (a : Q) :
  Forall (Resumos.numericAt key) arr ->
  exists t : Q,
    fold_left
      (fun s x => add s (Number StringToNumber (orElse (x !! key) zero)))
      arr (Num a) = Num t
    /\ (t == a + sumQ (map (Resumos.valueAt key) arr))%Q.
Proof.
  intros Hall. revert a.
  induction Hall as [|x rest Hx _ IH]; intros a; simpl.
  - exists a. split; [reflexivity|]. ring.
  - destruct (term_numeric key x Hx) as (v & -> & Hv). simpl.
    destruct (IH (a + v)%Q) as (t & -> & Ht).
    exists t. split; [reflexivity|]. rewrite Ht, Hv. ring.
Qed.

Lemma fold_pct (key : string) (t : Q) (arr : list row) (a : Q) :
  Forall (Resumos.numericAt key) arr ->
  ~ (t == 0)%Q ->
  exists s : Q,
    fold_left (fun s x => add s (Resumos.pctOf StringToNumber x))
      (map
         (fun x =>
            <["pct" :=
                JNumber
                  (mul (div (ToNumber StringToNumber (x !! key)) (Num t))
                     (Num 100))]> x)
         arr)
      (Num a) = Num s
    /\ (s == a + sumQ (map (Resumos.valueAt key) arr) / t * 100)%Q.
Proof.
  intros Hall Ht. revert a.
  induction Hall as [|x rest Hx _ IH]; intros a; simpl.
  - exists a. split; [reflexivity|]. field. exact Ht.
  - unfold Resumos.pctOf at 2. rewrite lookup_insert_eq.
    destruct Hx as [v Hv]. unfold Resumos.valueAt at 1. rewrite Hv. simpl.
    destruct (Qeq_bool t 0) eqn:Hz.
    { apply Qeq_bool_iff in Hz. contradiction. }
    simpl. destruct (IH (a + v / t * 100)%Q) as (s & Hs & Hsum).
    exists s. split; [exact Hs|]. rewrite Hsum. field. exact Ht.
Qed.

Lemma pieBy_zero (key : string) (arr : list row) (t : Q) :
  Resumos.totalBy StringToNumber key arr = Num t -> (t == 0)%Q ->
  Resumos.pieBy StringToNumber key arr
  = map (fun x => <["pct" := JNumber (Num 0)]> x) arr.
Proof.
  intros Htotal Hzero. unfold Resumos.pieBy. rewrite Htotal. simpl.
  apply Qeq_bool_iff in Hzero. rewrite Hzero. reflexivity.
Qed.

Lemma pieBy_positive (key : string) (arr : list row) (t : Q) :
  Resumos.totalBy StringToNumber key arr = Num t -> (0 < t)%Q ->
  Resumos.pieBy StringToNumber key arr
  = map
      (fun x =>
         <["pct" :=
             JNumber
               (mul (div (ToNumber StringToNumber (x !! key)) (Num t))
                  (Num 100))]> x)
      arr.
Proof.
  intros Htotal Hpos. unfold Resumos.pieBy. rewrite Htotal. simpl.
  destruct (Qeq_bool t 0) eqn:Hz; [|reflexivity].
  apply Qeq_bool_iff in Hz. rewrite Hz in Hpos.
  exfalso. exact (Qlt_irrefl 0 Hpos).
Qed.

Lemma pieBy_numeric_row (key : string) (arr : list row) (t : Q) (i : nat)
  (x : row) (v : Q) :
  Resumos.totalBy StringToNumber key arr = Num t -> (0 < t)%Q ->
  arr !! i = Some x ->
  x !! key = Some (JNumber (Num v)) ->
  Resumos.pieBy StringToNumber key arr !! i
  = Some (<["pct" := JNumber (Num (v / t * 100))]> x).
Proof.
  intros Htotal Hpos Hi Hv.
  rewrite (pieBy_positive key arr t Htotal Hpos), list_lookup_fmap, Hi.
  simpl. rewrite Hv. simpl.
  destruct (Qeq_bool t 0) eqn:Hz; [|reflexivity].
  apply Qeq_bool_iff in Hz. rewrite Hz in Hpos.
  exfalso. exact (Qlt_irrefl 0 Hpos).
Qed.

Lemma pieBy_sum (key : string) (arr : list row) (t : Q) :
  Resumos.totalBy StringToNumber key arr = Num t -> (0 < t)%Q ->
  Forall (Resumos.numericAt key) arr ->
  exists s : Q,
    Resumos.sumPct StringToNumber (Resumos.pieBy StringToNumber key arr)
    = Num s
    /\ (s == 100)%Q.
Proof.
  intros Htotal Hpos Hall.
  assert (Hne : ~ (t == 0)%Q).
  { intros Hz. rewrite Hz in Hpos. exact (Qlt_irrefl 0 Hpos). }
  rewrite (pieBy_positive key arr t Htotal Hpos).
  destruct (fold_pct key t arr 0 Hall Hne) as (s & Hs & Hsum).
  exists s. split; [exact Hs|].
  destruct (fold_total_numeric key arr 0 Hall) as (t' & Ht' & Hsum').
  unfold Resumos.totalBy, reduce in Htotal. rewrite Htotal in Ht'.
  injection Ht' as <-.
  rewrite Hsum. rewrite Qplus_0_l in Hsum'. rewrite <- Hsum'.
  field. exact Hne.
Qed.

(** C8.  The percentages of the two pies are division-safe.  When the
    total of Quantidade (resp. Saldo) is zero, every [pct] is 0.  When
    the total is positive, the [pct] of each row is that row's value
    divided by the total, times 100, and over a table whose rows all
    hold a number the [pct] column sums to 100. *)
Theorem pie_percent_division_safe (quantidadeCdas saldoCdas : list row) :
  (forall t : Q,
      Resumos.qtdTotal StringToNumber quantidadeCdas = Num t ->
      ((t == 0)%Q ->
       Resumos.pieQuantidadePercent StringToNumber quantidadeCdas
       = map (fun x => <["pct" := JNumber (Num 0)]> x) quantidadeCdas)
      /\ ((0 < t)%Q ->
          (forall (i : nat) (x : row) (v : Q),
              quantidadeCdas !! i = Some x ->
              x !! "Quantidade" = Some (JNumber (Num v)) ->
              Resumos.pieQuantidadePercent StringToNumber quantidadeCdas !! i
              = Some (<["pct" := JNumber (Num (v / t * 100))]> x))
          /\ (Forall (Resumos.numericAt "Quantidade") quantidadeCdas ->
              exists s : Q,
                Resumos.sumPct StringToNumber
                  (Resumos.pieQuantidadePercent StringToNumber quantidadeCdas)
                = Num s
                /\ (s == 100)%Q)))
  /\ (forall t : Q,
         Resumos.saldoTotal StringToNumber saldoCdas = Num t ->
         ((t == 0)%Q ->
          Resumos.pieSaldoPercent StringToNumber saldoCdas
          = map (fun x => <["pct" := JNumber (Num 0)]> x) saldoCdas)
         /\ ((0 < t)%Q ->
             (forall (i : nat) (x : row) (v : Q),
                 saldoCdas !! i = Some x ->
                 x !! "Saldo" = Some (JNumber (Num v)) ->
                 Resumos.pieSaldoPercent StringToNumber saldoCdas !! i
                 = Some (<["pct" := JNumber (Num (v / t * 100))]> x))
             /\ (Forall (Resumos.numericAt "Saldo") saldoCdas ->
                 exists s : Q,
                   Resumos.sumPct StringToNumber
                     (Resumos.pieSaldoPercent StringToNumber saldoCdas)
                   = Num s
                   /\ (s == 100)%Q))).
Proof.
  split; intros t Htotal; (split; [intros Hzero | intros Hpos; split]).
  - exact (pieBy_zero "Quantidade" quantidadeCdas t Htotal Hzero).
  - intros i x v Hi Hv.
    exact (pieBy_numeric_row "Quantidade" quantidadeCdas t i x v
             Htotal Hpos Hi Hv).
  - intros Hall.
    exact (pieBy_sum "Quantidade" quantidadeCdas t Htotal Hpos Hall).
  - exact (pieBy_zero "Saldo" saldoCdas t Htotal Hzero).
  - intros i x v Hi Hv.
    exact (pieBy_numeric_row "Saldo" saldoCdas t i x v Htotal Hpos Hi Hv).
  - intros Hall. exact (pieBy_sum "Saldo" saldoCdas t Htotal Hpos Hall).
Qed.

End PieFacts.

Lemma pie_percent_division_safe_witness :
  (Resumos.pieQuantidadePercent Sample.noNumber Sample.quantidade_zerada
   = map (fun x => <["pct" := JNumber (Num 0)]> x) Sample.quantidade_zerada
   /\ Resumos.pieSaldoPercent Sample.noNumber Sample.saldo_zerado
      = map (fun x => <["pct" := JNumber (Num 0)]> x) Sample.saldo_zerado)
  /\ (exists s : Q,
         Resumos.sumPct Sample.noNumber
           (Resumos.pieQuantidadePercent Sample.noNumber
              Sample.quantidade_cdas) = Num s
         /\ (s == 100)%Q)
  /\ (exists s : Q,
         Resumos.sumPct Sample.noNumber
           (Resumos.pieSaldoPercent Sample.noNumber Sample.saldo_cdas) = Num s
         /\ (s == 100)%Q).
Proof.
  split; [split|split].
  - apply (proj1 (pie_percent_division_safe Sample.noNumber
                    Sample.quantidade_zerada Sample.saldo_zerado) 0%Q);
      reflexivity.
  - apply (proj2 (pie_percent_division_safe Sample.noNumber
                    Sample.quantidade_zerada Sample.saldo_zerado) 0%Q);
      reflexivity.
  - apply (proj1 (pie_percent_division_safe Sample.noNumber
                    Sample.quantidade_cdas Sample.saldo_cdas) 4%Q).
    + reflexivity.
    + reflexivity.
    + repeat constructor; eexists; reflexivity.
  - apply (proj2 (pie_percent_division_safe Sample.noNumber
                    Sample.quantidade_cdas Sample.saldo_cdas) (200 # 4)%Q).
    + reflexivity.
    + reflexivity.
    + repeat constructor; eexists; reflexivity.
Defined.

(** ** [BuscaCDA]: the column 'Situação' *)

(** C4.  For a record whose [agrupamento_situacao] is one of the codes
    -1, 0, 1, the cell of the column 'Situação' is the label of that
    code: -1 renders as 'Cancelada', 0 as 'Em cobrança' and 1 as
    'Quitada', the inverse of the label-to-code table. *)
Theorem situacaoCell_inverts_label_code (r : row) (code : Z) :
  code ∈ [-1; 0; 1] ->
  r !! "agrupamento_situacao" = Some (JNumber (Num (inject_Z code))) ->
  Engine.label_code (Busca.situacaoCell r) = Some code
  /\ Busca.situacaoCell r
     = match code with
       | -1 => "Cancelada"
       | 0 => "Em cobrança"
       | _ => "Quitada"
       end.
Proof.
  intros Hcode Hr. unfold Busca.situacaoCell. rewrite Hr.
  assert (Hcases : code = -1 \/ code = 0 \/ code = 1).
  { rewrite !elem_of_cons, elem_of_nil in Hcode. tauto. }
  destruct Hcases as [-> | [-> | ->]]; split; reflexivity.
Qed.

Lemma situacaoCell_inverts_label_code_witness :
  Busca.situacaoCell {[ "agrupamento_situacao" := JNumber (Num (-1)) ]}
  = "Cancelada"
  /\ Busca.situacaoCell {[ "agrupamento_situacao" := JNumber (Num 0) ]}
     = "Em cobrança"
  /\ Busca.situacaoCell {[ "agrupamento_situacao" := JNumber (Num 1) ]}
     = "Quitada".
Proof.
  split; [|split].
  - refine (proj2 (situacaoCell_inverts_label_code _ (-1) _ _)).
    + repeat constructor.
    + reflexivity.
  - refine (proj2 (situacaoCell_inverts_label_code _ 0 _ _)).
    + repeat constructor.
    + reflexivity.
  - refine (proj2 (situacaoCell_inverts_label_code _ 1 _ _)).
    + repeat constructor.
    + reflexivity.
Defined.

(** ** [BuscaCDA]: the request *)

(** C6.  The initial state of [BuscaCDA] holds the defaults of the query
    surface, and so does the request that the component sends when it
    is mounted: [sort_by = saldo], [sort_dir = desc], [page = 1],
    [page_size = 20]. *)
Theorem initial_request_uses_defaults :
  (Busca.sortBy Busca.initial, Busca.sortDir Busca.initial,
   Busca.page Busca.initial, Busca.pageSize Busca.initial)
  = (saldo, desc, 1, 20)
  /\ Params.sort_by (Busca.params Busca.initial) = Engine.default_sort_by
  /\ Params.sort_dir (Busca.params Busca.initial) = Engine.default_sort_dir
  /\ Params.page (Busca.params Busca.initial) = Engine.default_page
  /\ Params.page_size (Busca.params Busca.initial)
     = Engine.default_page_size
  /\ forall server : Params.t -> response SearchBody.t,
      Busca.mount server
      = Busca.buscar server Busca.initial Busca.initial.
Proof. repeat split. Qed.

(** Without any filter the composite predicate accepts every record. *)
Lemma predicate_unconstrained (p : Params.t) (r : CdaRecord) :
  Params.q p = None ->
  Params.natureza p = None ->
  Params.situacao p = None ->
  Params.min_ano p = None -> Params.max_ano p = None ->
  Params.min_saldo p = None -> Params.max_saldo p = None ->
  Params.min_score p = None -> Params.max_score p = None ->
  Engine.predicate p r = true.
Proof.
  intros Hq Hn Hs Ha Ha' Hb Hb' Hc Hc'.
  unfold Engine.predicate, Engine.match_q, Engine.match_natureza,
    Engine.match_situacao, Engine.in_range.
  rewrite Hq, Hn, Hs, Ha, Ha', Hb, Hb', Hc, Hc'. reflexivity.
Qed.

(** C7.  Whatever the state of the form, a filter dimension that is
    left empty (the empty string [q], an empty selection of natureza or
    situacao, a blank numeric bound) is [undefined] in the request that
    [buscar] builds, so it is absent from the query; each dimension is
    decided on its own, and a request built from a form with every
    filter empty puts no constraint on any record. *)
Theorem buscar_omits_empty_filters (st : Busca.State) :
  (Busca.q st = "" -> Params.q (Busca.params st) = None)
  /\ (Busca.natureza st = [] -> Params.natureza (Busca.params st) = None)
  /\ (Busca.situacao st = [] -> Params.situacao (Busca.params st) = None)
  /\ (Busca.minAno st = Busca.Blank ->
      Params.min_ano (Busca.params st) = None)
  /\ (Busca.maxAno st = Busca.Blank ->
      Params.max_ano (Busca.params st) = None)
  /\ (Busca.minSaldo st = Busca.Blank ->
      Params.min_saldo (Busca.params st) = None)
  /\ (Busca.maxSaldo st = Busca.Blank ->
      Params.max_saldo (Busca.params st) = None)
  /\ (Busca.minScore st = Busca.Blank ->
      Params.min_score (Busca.params st) = None)
  /\ (Busca.maxScore st = Busca.Blank ->
      Params.max_score (Busca.params st) = None)
  /\ (Busca.q st = "" -> Busca.natureza st = [] -> Busca.situacao st = [] ->
      Busca.minAno st = Busca.Blank -> Busca.maxAno st = Busca.Blank ->
      Busca.minSaldo st = Busca.Blank -> Busca.maxSaldo st = Busca.Blank ->
      Busca.minScore st = Busca.Blank -> Busca.maxScore st = Busca.Blank ->
      forall r : CdaRecord, Engine.predicate (Busca.params st) r = true).
Proof.
  assert (Hq : Busca.q st = "" -> Params.q (Busca.params st) = None).
  { intros H. simpl. rewrite H. reflexivity. }
  assert (Hn : Busca.natureza st = [] ->
               Params.natureza (Busca.params st) = None).
  { intros H. simpl. rewrite H. reflexivity. }
  assert (Hs : Busca.situacao st = [] ->
               Params.situacao (Busca.params st) = None).
  { intros H. simpl. rewrite H. reflexivity. }
  assert (Hb : forall x, x = Busca.Blank -> Busca.blankToUndefined x = None).
  { intros x ->. reflexivity. }
  repeat (split; [first [exact Hq | exact Hn | exact Hs
                        | intros H; simpl; apply Hb, H]|]).
  intros H1 H2 H3 H4 H5 H6 H7 H8 H9 r.
  apply predicate_unconstrained; simpl; auto.
Qed.

Lemma buscar_omits_empty_filters_witness :
  (Params.q (Busca.params Busca.initial) = None
   /\ Params.natureza (Busca.params Busca.initial) = None
   /\ Params.situacao (Busca.params Busca.initial) = None)
  /\ (Params.min_ano (Busca.params Busca.initial) = None
      /\ Params.max_ano (Busca.params Busca.initial) = None
      /\ Params.min_saldo (Busca.params Busca.initial) = None
      /\ Params.max_saldo (Busca.params Busca.initial) = None
      /\ Params.min_score (Busca.params Busca.initial) = None
      /\ Params.max_score (Busca.params Busca.initial) = None)
  /\ forall r : CdaRecord,
      Engine.predicate (Busca.params Busca.initial) r = true.
Proof.
  pose proof (buscar_omits_empty_filters Busca.initial) as
    (Hq & Hn & Hs & H1 & H2 & H3 & H4 & H5 & H6 & Hall).
  split; [|split].
  - split; [|split]; [apply Hq | apply Hn | apply Hs]; reflexivity.
  - split; [apply H1|split; [apply H2|split; [apply H3|split;
      [apply H4|split; [apply H5|apply H6]]]]]; reflexivity.
  - apply Hall; reflexivity.
Defined.

(** ** [BuscaCDA]: the pagination controls *)

Arguments Busca.totalPages : simpl never.

Lemma totalPages_ge_1 (st : Busca.State) : 1 <= Busca.totalPages st.
Proof. unfold Busca.totalPages. lia. Qed.


(** [totalPages] is the least number of pages, at least one, that
    holds [total] records. *)
Lemma totalPages_least (st : Busca.State) (n : Z) :
  0 < Busca.pageSize st -> 1 <= n ->
  Busca.totalPages st <= n <-> Busca.total st <= n * Busca.pageSize st.
Proof.
  intros Hsize Hn. unfold Busca.totalPages.
  assert (Hpos : (0 < inject_Z (Busca.pageSize st))%Q).
  { change 0%Q with (inject_Z 0). rewrite <- Zlt_Qlt. exact Hsize. }
  set (x := (inject_Z (Busca.total st) / inject_Z (Busca.pageSize st))%Q).
  assert (Hceil : Qceiling x <= n <-> (x <= inject_Z n)%Q).
  { split; intros H.
    - eapply Qle_trans; [apply Qle_ceiling|]. rewrite <- Zle_Qle. exact H.
    - rewrite <- (Qceiling_Z n). apply Qceiling_resp_le, H. }
  assert (Hdiv : (x <= inject_Z n)%Q
                 <-> Busca.total st <= n * Busca.pageSize st).
  { rewrite Zle_Qle, inject_Z_mult. unfold x. split; intros H.
    - apply (Qmult_le_r _ _ (/ inject_Z (Busca.pageSize st))).
      + apply Qinv_lt_0_compat, Hpos.
      + rewrite <- Qmult_assoc, Qmult_inv_r, Qmult_1_r; [exact H|].
        intros Hz. rewrite Hz in Hpos. exact (Qlt_irrefl 0 Hpos).
    - apply Qle_shift_div_r; [exact Hpos | exact H]. }
  rewrite <- Hdiv, <- Hceil. lia.
Qed.







(** The answer to a request is not a control: it sets [total], and with
    it [totalPages], to what the service reports for the filters of the
    form as they are then.  A filter typed after the last search takes
    part in the request that follows 'Próxima', and the page can end
    above [totalPages]. *)
Lemma answer_can_shrink_totalPages :
  let typed := Busca.setQ "zzz" Sample.afterMount in
  let st := Busca.handle Sample.server Busca.ClickProxima typed in
  Busca.pageInRange typed
  /\ Busca.page st = 2
  /\ Busca.totalPages st = 1
  /\ ~ Busca.pageInRange st.
Proof.
  cbv zeta. repeat split; try (vm_compute; congruence).
  intros [_ H]. vm_compute in H. congruence.
Qed.

(** ** The engine: Paginator *)

Section PaginatorFacts.

Context {A : Type}.

Lemma paginate_total (seq : list A) (page page_size : Z) :
  snd (Engine.paginate seq page page_size) = Z.of_nat (length seq).
Proof. reflexivity. Qed.

Lemma paginate_past_the_end (seq : list A) (page page_size : Z) :
  1 <= page -> 1 <= page_size ->
  Z.of_nat (length seq) <= (page - 1) * page_size ->
  fst (Engine.paginate seq page page_size) = [].
Proof.
  intros Hpage Hsize Hpast. unfold Engine.paginate. simpl.
  rewrite !Z.max_r by lia.
  rewrite drop_ge by lia. apply take_nil.
Qed.

Lemma paginate_length (seq : list A) (page page_size : Z) :
  1 <= page -> 1 <= page_size ->
  Z.of_nat (length (fst (Engine.paginate seq page page_size)))
  = Z.max 0
      (Z.min page_size (Z.of_nat (length seq) - (page - 1) * page_size)).
Proof.
  intros Hpage Hsize. unfold Engine.paginate. simpl.
  rewrite !Z.max_r by lia.
  rewrite length_take, length_drop. nia.
Qed.

End PaginatorFacts.

Lemma length_insert_sorted (by_ : SortField) (dir : Direction)
  (r : CdaRecord) (sorted : list CdaRecord) :
  length (Engine.insert_sorted by_ dir r sorted) = S (length sorted).
Proof.
  induction sorted as [|x rest IH]; simpl; [reflexivity|].
  destruct (Engine.precedes by_ dir r x); simpl; [reflexivity|].
  rewrite IH. reflexivity.
Qed.

Lemma length_sort (by_ : SortField) (dir : Direction)
  (records : list CdaRecord) :
  length (Engine.sort by_ dir records) = length records.
Proof.
  induction records as [|r rest IH]; simpl; [reflexivity|].
  rewrite length_insert_sorted, IH. reflexivity.
Qed.

(** C2.  For [page >= 1] and [page_size >= 1] the Paginator returns as
    [total] the length of the whole sequence, whichever page is asked
    for, and so does a search: its total is the number of records that
    pass the filter.  A page past the last one of a non-empty sequence
    yields no items and the same non-zero total, not an error: page 5
    with page size 20 of a 12-item sequence yields [([], 12)]. *)
Theorem paginate_total_independent_of_page
  (records : list CdaRecord) (p : Params.t) (page page_size : Z) :
  1 <= page -> 1 <= page_size ->
  (snd (Engine.paginate records page page_size)
   = Z.of_nat (length records)
   /\ forall page' page_size' : Z,
       snd (Engine.paginate records page' page_size')
       = snd (Engine.paginate records page page_size))
  /\ snd (Engine.search records (Params.with_page page page_size p))
     = Z.of_nat
         (length (filter (fun r => Engine.predicate p r = true) records))
  /\ (records <> [] ->
      Z.of_nat (length records) <= (page - 1) * page_size ->
      Engine.paginate records page page_size
      = ([], Z.of_nat (length records))
      /\ snd (Engine.paginate records page page_size) <> 0)
  /\ (length records = 12%nat ->
      Engine.paginate records 5 20 = ([], 12)).
Proof.
  intros Hpage Hsize. split; [split; [reflexivity | reflexivity]|].
  split.
  { unfold Engine.search. rewrite paginate_total, length_sort.
    reflexivity. }
  split.
  - intros Hne Hpast. split.
    + rewrite (surjective_pairing (Engine.paginate records page page_size)).
      rewrite paginate_past_the_end by assumption. reflexivity.
    + rewrite paginate_total. destruct records; [congruence | simpl; lia].
  - intros Hlen.
    rewrite (surjective_pairing (Engine.paginate records 5 20)).
    rewrite paginate_past_the_end, paginate_total, Hlen by lia.
    reflexivity.
Qed.

Lemma paginate_total_independent_of_page_witness :
  Engine.paginate Sample.doze_cdas 5 20 = ([], 12)
  /\ snd (Engine.paginate Sample.doze_cdas 5 20) <> 0.
Proof.
  destruct (paginate_total_independent_of_page Sample.doze_cdas
              (Busca.params Busca.initial) 5 20)
    as (_ & _ & Hpast & Htwelve); [lia | lia |].
  split.
  - apply Htwelve. reflexivity.
  - apply Hpast; [discriminate | vm_compute; discriminate].
Defined.

(** ** The engine: KpiCalculator *)

Lemma volume_fold (records : list CdaRecord) (n : Z) :
  fold_left
    (fun n r => if Cda.agrupamento_situacao r =? 0 then n + 1 else n)
    records n
  = n + Z.of_nat
          (length (filter (fun c => c = 0)
                     (map Cda.agrupamento_situacao records))).
Proof.
  revert n. induction records as [|r rest IH]; intros n; simpl.
  - lia.
  - rewrite IH, filter_cons.
    destruct (Z.eqb_spec (Cda.agrupamento_situacao r) 0) as [Heq|Hne];
      destruct (decide (Cda.agrupamento_situacao r = 0)); try contradiction;
      simpl; lia.
Qed.

(** C3.  [volume_em_cobranca] is the number of records whose
    [agrupamento_situacao] is 0; it depends on the codes alone, so two
    datasets with the same codes have the same volume whatever their
    other fields hold; and three records with the codes -1, 0 and 1, in
    any order, have the volume 1. *)
Theorem volume_em_cobranca_counts_code_0 (records : list CdaRecord) :
  Engine.volume_em_cobranca records
  = Z.of_nat
      (length (filter (fun r => Cda.agrupamento_situacao r = 0) records))
  /\ (forall records' : list CdaRecord,
         map Cda.agrupamento_situacao records'
         = map Cda.agrupamento_situacao records ->
         Engine.volume_em_cobranca records'
         = Engine.volume_em_cobranca records)
  /\ (map Cda.agrupamento_situacao records ≡ₚ [-1; 0; 1] ->
      Engine.volume_em_cobranca records = 1).
Proof.
  unfold Engine.volume_em_cobranca. split; [|split].
  - rewrite volume_fold, Z.add_0_l. f_equal.
    induction records as [|r rest IH]; [reflexivity|].
    simpl. rewrite !filter_cons. simpl.
    destruct (decide (Cda.agrupamento_situacao r = 0)); simpl; rewrite IH;
      reflexivity.
  - intros records' Hcodes. rewrite !volume_fold, Hcodes. reflexivity.
  - intros Hperm. rewrite volume_fold, Hperm. reflexivity.
Qed.

Lemma volume_em_cobranca_counts_code_0_witness :
  Engine.volume_em_cobranca Sample.tres_cdas = 1
  /\ Engine.volume_em_cobranca (reverse Sample.tres_cdas)
     = Engine.volume_em_cobranca Sample.tres_cdas.
Proof.
  split.
  - apply (proj2 (proj2 (volume_em_cobranca_counts_code_0 Sample.tres_cdas))).
    reflexivity.
  - rewrite (proj2 (proj2 (volume_em_cobranca_counts_code_0
                             (reverse Sample.tres_cdas)))).
    + symmetry.
      apply (proj1 (proj2 (volume_em_cobranca_counts_code_0
                             Sample.tres_cdas))).
      reflexivity.
    + symmetry. exact (Permutation_rev [-1; 0; 1]).
Defined.

(** ** The engine: the two encodings of [situacao] *)

Lemma situacao_codes_app (a b : list string) :
  Engine.situacao_codes (a ++ b)
  = Engine.situacao_codes a ∪ Engine.situacao_codes b.
Proof.
  unfold Engine.situacao_codes.
  rewrite omap_app. apply leibniz_equiv, list_to_set_app.
Qed.

Lemma search_same_codes (records : list CdaRecord) (p : Params.t)
  (a b : list string) :
  a <> [] -> b <> [] ->
  Engine.situacao_codes a = Engine.situacao_codes b ->
  Engine.search records (Params.with_situacao (Some a) p)
  = Engine.search records (Params.with_situacao (Some b) p).
Proof.
  intros Ha Hb Hcodes. unfold Engine.search. simpl. f_equal. f_equal.
  apply list_filter_iff. intros r.
  unfold Engine.predicate, Engine.match_situacao. simpl.
  destruct a as [|ta a]; [congruence|]. destruct b as [|tb b]; [congruence|].
  rewrite Hcodes. reflexivity.
Qed.

(** C5.  On every dataset, and whatever the other parameters are, a
    search with [situacao = {"Em cobrança"}] returns what a search with
    [situacao = {0}] returns: both resolve to the code set [{0}].  The
    two encodings may be mixed in one request; the code set of the
    request is the union of the code sets of its parts, and two requests
    with the same code set return the same result. *)
Theorem situacao_label_and_code_agree
  (records : list CdaRecord) (p : Params.t) :
  Engine.search records (Params.with_situacao (Some ["Em cobrança"]) p)
  = Engine.search records (Params.with_situacao (Some ["0"]) p)
  /\ Engine.situacao_codes ["Em cobrança"] = {[ 0 ]}
  /\ Engine.situacao_codes ["0"] = {[ 0 ]}
  /\ Engine.search records
       (Params.with_situacao (Some ["Em cobrança"; "0"]) p)
     = Engine.search records (Params.with_situacao (Some ["0"]) p)
  /\ (forall a b : list string,
         Engine.situacao_codes (a ++ b)
         = Engine.situacao_codes a ∪ Engine.situacao_codes b)
  /\ (forall a b : list string,
         a <> [] -> b <> [] ->
         Engine.situacao_codes a = Engine.situacao_codes b ->
         Engine.search records (Params.with_situacao (Some a) p)
         = Engine.search records (Params.with_situacao (Some b) p)).
Proof.
  assert (Hlabel : Engine.situacao_codes ["Em cobrança"] = {[ 0 ]}).
  { unfold Engine.situacao_codes. simpl. apply leibniz_equiv. set_solver. }
  assert (Hcode : Engine.situacao_codes ["0"] = {[ 0 ]}).
  { unfold Engine.situacao_codes. simpl. apply leibniz_equiv. set_solver. }
  assert (Hmixed : Engine.situacao_codes ["Em cobrança"; "0"] = {[ 0 ]}).
  { unfold Engine.situacao_codes. simpl. apply leibniz_equiv. set_solver. }
  split; [|split; [exact Hlabel|split; [exact Hcode|split; [|split]]]].
  - apply search_same_codes; congruence.
  - apply search_same_codes; congruence.
  - apply situacao_codes_app.
  - intros a b. apply search_same_codes.
Qed.

Lemma situacao_label_and_code_agree_witness :
  Engine.search Sample.tres_cdas
    (Params.with_situacao (Some ["Quitada"; "0"])
       (Busca.params Busca.initial))
  = Engine.search Sample.tres_cdas
      (Params.with_situacao (Some ["Em cobrança"; "1"])
         (Busca.params Busca.initial)).
Proof.
  apply (proj2 (proj2 (proj2 (proj2 (proj2
           (situacao_label_and_code_agree Sample.tres_cdas
              (Busca.params Busca.initial))))))).
  - discriminate.
  - discriminate.
  - apply leibniz_equiv. unfold Engine.situacao_codes. simpl. set_solver.
Defined.

(** ** The engine: the counts of [quantidade_cdas] *)

Lemma sum_list_zero {K : Type} (keys : list K) :
  sum_list (map (fun _ => 0%nat) keys) = 0%nat.
Proof. induction keys as [|k keys IH]; simpl; [reflexivity | exact IH]. Qed.

Lemma sum_list_plus {K : Type} (f g : K -> nat) (keys : list K) :
  sum_list (map (fun k => (f k + g k)%nat) keys)
  = (sum_list (map f keys) + sum_list (map g keys))%nat.
Proof. induction keys as [|k keys IH]; simpl; [reflexivity | lia]. Qed.

Lemma sum_list_indicator_absent (x : string) (keys : list string) :
  x ∉ keys ->
  sum_list (map (fun k => if decide (x = k) then 1%nat else 0%nat) keys)
  = 0%nat.
Proof.
  induction keys as [|k keys IH]; intros Hx; simpl; [reflexivity|].
  apply not_elem_of_cons in Hx as [Hne Hnotin].
  destruct (decide (x = k)); [contradiction|]. apply IH, Hnotin.
Qed.

Lemma sum_list_indicator (x : string) (keys : list string) :
  NoDup keys -> x ∈ keys ->
  sum_list (map (fun k => if decide (x = k) then 1%nat else 0%nat) keys)
  = 1%nat.
Proof.
  intros Hnodup. induction Hnodup as [|k keys Hk _ IH]; intros Hx.
  - inversion Hx.
  - simpl. destruct (decide (x = k)) as [->|Hne].
    + rewrite sum_list_indicator_absent by exact Hk. reflexivity.
    + rewrite IH; [reflexivity|].
      apply elem_of_cons in Hx as [Heq|Hin]; [contradiction | exact Hin].
Qed.

Lemma counts_by_natureza (keys : list string) (records : list CdaRecord) :
  NoDup keys ->
  Forall (fun r => Cda.natureza r ∈ keys) records ->
  sum_list
    (map (fun k => length (filter (fun r => Cda.natureza r = k) records))
       keys)
  = length records.
Proof.
  intros Hnodup Hall.
  induction Hall as [|r rest Hr _ IH].
  - apply sum_list_zero.
  - rewrite (map_ext _
               (fun k =>
                  ((if decide (Cda.natureza r = k) then 1 else 0)
                   + length (filter (fun r' => Cda.natureza r' = k) rest)
                  )%nat)).
    + rewrite sum_list_plus, sum_list_indicator, IH by assumption.
      reflexivity.
    + intros k. rewrite filter_cons.
      destruct (decide (Cda.natureza r = k)); reflexivity.
Qed.

Lemma quantidade_cdas_numeric (records : list CdaRecord) :
  Forall (Resumos.numericAt "Quantidade") (Engine.quantidade_cdas records).
Proof.
  unfold Engine.quantidade_cdas. apply Forall_fmap, Forall_forall.
  intros n _. eexists. reflexivity.
Qed.

Lemma quantidade_cdas_values (records : list CdaRecord)
  (keys : list string) :
  (sumQ
     (map (Resumos.valueAt "Quantidade")
        (map
           (fun n =>
              {[ "name" := JString n;
                 "Quantidade" :=
                   JNumber
                     (Num
                        (inject_Z
                           (Z.of_nat
                              (length
                                 (filter (fun r => Cda.natureza r = n)
                                    records))))) ]})
           keys))
   == inject_Z
        (Z.of_nat
           (sum_list
              (map
                 (fun k =>
                    length (filter (fun r => Cda.natureza r = k) records))
                 keys))))%Q.
Proof.
  induction keys as [|k keys IH]; simpl; [reflexivity|].
  rewrite IH, Nat2Z.inj_add, inject_Z_plus. reflexivity.
Qed.

(** The counts of [quantidade_cdas] add up to the number of records. *)
Lemma qtdTotal_quantidade_cdas (StringToNumber : string -> number)
  (records : list CdaRecord) :
  exists t : Q,
    Resumos.qtdTotal StringToNumber (Engine.quantidade_cdas records) = Num t
    /\ (t == inject_Z (Z.of_nat (length records)))%Q.
Proof.
  destruct (fold_total_numeric StringToNumber "Quantidade"
              (Engine.quantidade_cdas records) 0
              (quantidade_cdas_numeric records)) as (t & Ht & Hsum).
  exists t. split; [exact Ht|].
  rewrite Hsum, Qplus_0_l. unfold Engine.quantidade_cdas.
  rewrite quantidade_cdas_values, counts_by_natureza; [reflexivity | |].
  - apply NoDup_remove_dups.
  - apply Forall_forall. intros r Hr.
    apply elem_of_remove_dups, list_elem_of_fmap. exists r. auto.
Qed.

Lemma volume_le_length (records : list CdaRecord) :
  Engine.volume_em_cobranca records <= Z.of_nat (length records)
  /\ (Exists (fun r => Cda.agrupamento_situacao r <> 0) records ->
      Engine.volume_em_cobranca records < Z.of_nat (length records)).
Proof.
  unfold Engine.volume_em_cobranca. rewrite volume_fold, Z.add_0_l.
  split.
  - pose proof (length_filter (fun c => c = 0)
                  (map Cda.agrupamento_situacao records)) as H.
    rewrite length_map in H. lia.
  - intros Hex. apply Exists_exists in Hex as (r & Hr & Hne).
    pose proof (length_filter_lt (fun c => c = 0)
                  (map Cda.agrupamento_situacao records)
                  (Cda.agrupamento_situacao r)) as H.
    rewrite length_map in H.
    assert (Hin : Cda.agrupamento_situacao r
                  ∈ map Cda.agrupamento_situacao records).
    { apply list_elem_of_fmap. exists r. auto. }
    specialize (H Hin Hne). lia.
Qed.

(** ** [Resumos]: the card 'Volume de CDAs em cobrança' *)

Section KpiFacts.

Variable StringToNumber : string -> number.

(** C10.  When the request to the KPI endpoint fails, [fetchAll] still
    resolves: the error is swallowed, [qtdEmCobrancaTotal] stays [null]
    and the card shows [qtdTotal], the sum of Quantidade over the rows
    of [quantidade_cdas].  When the request succeeds, the card shows
    the [total] of the answer.  For the [quantidade_cdas] of a dataset
    the fallback is the number of all its records, of every situacao,
    which is more than [volume_em_cobranca] as soon as one record is
    not in collection. *)
Theorem volume_kpi_fallback (tables : string -> list row) :
  (snd (Resumos.fetchAll (Resumos.apiOf tables Failed) Resumos.initial)
   = Resumos.Resolved
   /\ Resumos.qtdEmCobrancaTotal (Resumos.loaded tables Failed) = Some JNull
   /\ Resumos.volumeKpi StringToNumber (Resumos.loaded tables Failed)
      = JNumber (Resumos.qtdTotal StringToNumber (tables "quantidade_cdas")))
  /\ (forall n : number,
         Resumos.volumeKpi StringToNumber
           (Resumos.loaded tables
              (Ok (Resumos.mkKpiBody (Some (JNumber n)))))
         = JNumber n)
  /\ (forall records : list CdaRecord,
         tables "quantidade_cdas" = Engine.quantidade_cdas records ->
         exists t : Q,
           Resumos.volumeKpi StringToNumber (Resumos.loaded tables Failed)
           = JNumber (Num t)
           /\ (t == inject_Z (Z.of_nat (length records)))%Q
           /\ Engine.volume_em_cobranca records
              <= Z.of_nat (length records)
           /\ (Exists (fun r => Cda.agrupamento_situacao r <> 0) records ->
               Engine.volume_em_cobranca records
               < Z.of_nat (length records))).
Proof.
  split; [repeat split|split].
  - intros n. reflexivity.
  - intros records Htables.
    destruct (qtdTotal_quantidade_cdas StringToNumber records)
      as (t & Ht & Hlen).
    exists t. split; [|split; [exact Hlen | apply volume_le_length]].
    unfold Resumos.volumeKpi, Resumos.loaded. simpl.
    rewrite Htables, Ht. reflexivity.
Qed.

End KpiFacts.

Lemma volume_kpi_fallback_witness :
  exists t : Q,
    Resumos.volumeKpi Sample.noNumber (Resumos.loaded Sample.tables Failed)
    = JNumber (Num t)
    /\ (t == 3)%Q
    /\ Engine.volume_em_cobranca Sample.tres_cdas < 3.
Proof.
  destruct (proj2 (proj2 (volume_kpi_fallback Sample.noNumber Sample.tables))
              Sample.tres_cdas eq_refl)
    as (t & Hkpi & Hlen & _ & Hless).
  exists t. split; [exact Hkpi|]. split; [exact Hlen|].
  apply Hless. apply Exists_cons_hd. discriminate.
Defined.

(** * Further properties of the front end *)

(** ** [trimLeadingZerosByKey] on arbitrary rows *)

Section TrimShape.

Variable StringToNumber : string -> number.

(** An array either has no element that passes a test, or splits at the
    first one that does. *)
Lemma first_passing_split {A : Type} (p : A -> bool) (arr : list A) :
  Forall (fun y => p y = false) arr
  \/ exists (pre : list A) (x : A) (post : list A),
      arr = pre ++ x :: post
      /\ Forall (fun y => p y = false) pre
      /\ p x = true.
Proof.
  induction arr as [|a rest IH].
  - left. constructor.
  - destruct (p a) eqn:Ha.
    + right. exists [], a, rest. repeat split; [constructor | exact Ha].
    + destruct IH as [Hall | (pre & x & post & -> & Hpre & Hx)].
      * left. constructor; assumption.
      * right. exists (a :: pre), x, post.
        repeat split; [constructor; assumption | exact Hx].
Qed.

(** X1.  Whatever the rows and the key, the result of
    [trimLeadingZerosByKey] is the array without its first [n] rows;
    every row it leaves out fails the test [Number(..) > 0] (zero, a
    negative or missing value, [null], [NaN]); when a row is left out,
    the first row kept passes the test; and a non-empty array is never
    trimmed to the empty one. *)
Theorem trim_drops_failing_prefix (arr : list row) (key : string) :
  exists n : nat,
    Resumos.trimLeadingZerosByKey StringToNumber arr key = drop n arr
    /\ Forall (fun r => Resumos.positiveAt StringToNumber key r = false)
         (take n arr)
    /\ (n <> 0%nat ->
        exists x : row,
          head (Resumos.trimLeadingZerosByKey StringToNumber arr key)
          = Some x
          /\ Resumos.positiveAt StringToNumber key x = true)
    /\ (arr <> [] ->
        Resumos.trimLeadingZerosByKey StringToNumber arr key <> []).
Proof.
  destruct (first_passing_split (Resumos.positiveAt StringToNumber key) arr)
    as [Hall | (pre & x & post & -> & Hpre & Hx)].
  - exists 0%nat. rewrite (trim_no_positive _ _ _ Hall).
    repeat split; [constructor | congruence | auto].
  - exists (length pre).
    rewrite (trim_first_positive _ _ _ _ _ Hpre Hx).
    rewrite drop_app_length, take_app_length.
    repeat split; [exact Hpre | | discriminate].
    intros _. exists x. split; [reflexivity | exact Hx].
Qed.

(** X2.  Trimming is idempotent: a trimmed series is not trimmed any
    further. *)
Theorem trim_idempotent (arr : list row) (key : string) :
  Resumos.trimLeadingZerosByKey StringToNumber
    (Resumos.trimLeadingZerosByKey StringToNumber arr key) key
  = Resumos.trimLeadingZerosByKey StringToNumber arr key.
Proof.
  destruct (first_passing_split (Resumos.positiveAt StringToNumber key) arr)
    as [Hall | (pre & x & post & -> & Hpre & Hx)].
  - rewrite !(trim_no_positive _ _ _ Hall). reflexivity.
  - rewrite (trim_first_positive _ _ _ _ _ Hpre Hx).
    apply (trim_first_positive StringToNumber key [] x post);
      [constructor | exact Hx].
Qed.

(** X3.  When no row holds anything but [null] under the key, for
    instance because the key is misspelt, the array comes back as it
    is: every row reads as 0 and none is dropped. *)
Theorem trim_missing_key (arr : list row) (key : string) :
  Forall (fun r => r !! key = None \/ r !! key = Some JNull) arr ->
  Resumos.trimLeadingZerosByKey StringToNumber arr key = arr.
Proof.
  intros Hall. apply trim_no_positive.
  eapply Forall_impl; [exact Hall|].
  intros r [Hr | Hr]; unfold Resumos.positiveAt; rewrite Hr; reflexivity.
Qed.

End TrimShape.

Lemma trim_missing_key_witness :
  Resumos.trimLeadingZerosByKey Sample.noNumber Sample.serie_2000_2002
    "quantidade"
  = Sample.serie_2000_2002.
Proof.
  apply trim_missing_key. repeat constructor.
Defined.

(** ** [Resumos]: the series of the selected tab *)

Lemma trim_suffix_nonempty (StringToNumber : string -> number)
  (arr : list row) (key : string) :
  Resumos.trimLeadingZerosByKey StringToNumber arr key `suffix_of` arr
  /\ (arr <> [] ->
      Resumos.trimLeadingZerosByKey StringToNumber arr key <> []).
Proof.
  destruct (first_passing_split (Resumos.positiveAt StringToNumber key) arr)
    as [Hall | (pre & x & post & -> & Hpre & Hx)].
  - rewrite (trim_no_positive _ _ _ Hall). split; [reflexivity | auto].
  - rewrite (trim_first_positive _ _ _ _ _ Hpre Hx).
    split; [exists pre; reflexivity | discriminate].
Qed.

(** X4.  Once [fetchAll] has stored the summaries, the charted series of
    each tab is a suffix of the table of the matching endpoint
    ('Inscritas' of [inscricoes], 'Canceladas' of
    [inscricoes_canceladas], 'Quitadas' of [inscricoes_quitadas]),
    whatever the KPI request did, and it is empty only when that table
    is. *)
Theorem serieAtual_charts_its_endpoint (StringToNumber : string -> number)
  (tables : string -> list row) (kpi : response Resumos.KpiBody)
  (ui : ResumosUi.Ui) :
  ResumosUi.serieAtual StringToNumber ui (Resumos.loaded tables kpi)
    `suffix_of` tables (ResumosUi.endpointOf (ResumosUi.serieInscricao ui))
  /\ (tables (ResumosUi.endpointOf (ResumosUi.serieInscricao ui)) <> [] ->
      ResumosUi.serieAtual StringToNumber ui (Resumos.loaded tables kpi)
      <> []).
Proof.
  unfold ResumosUi.serieAtual.
  destruct (ResumosUi.serieInscricao ui); destruct kpi as [body|];
    apply trim_suffix_nonempty.
Qed.

(** ** [Resumos]: the pop-up *)






Lemma step_sameButStaleKey (a b : ResumosUi.Ui) (e : ResumosUi.event) :
  sameButStaleKey a b ->
  sameButStaleKey (ResumosUi.step a e) (ResumosUi.step b e).
Proof.
  intros (H1 & H2 & H3 & H4 & H5 & H6).
  destruct e as [key| |key|m|m|s]; simpl;
    try (unfold ResumosUi.onEsc; destruct (String.eqb key "Escape"));
    unfold sameButStaleKey; simpl; auto 10.
Qed.

Lemma run_sameButStaleKey (events : list ResumosUi.event)
  (a b : ResumosUi.Ui) :
  sameButStaleKey a b ->
  sameButStaleKey (ResumosUi.run events a) (ResumosUi.run events b).
Proof.
  revert a b. induction events as [|e events IH]; intros a b Hab.
  - exact Hab.
  - apply IH, step_sameButStaleKey, Hab.
Qed.

(** X6.  The Escape key closes the pop-up without clearing its key,
    unlike the close button; any other key changes nothing.  The key
    that Escape leaves behind is never seen: after any further events
    the toggles, the selected series and what the pop-up shows are the
    same as if the close button had been used. *)
Theorem escape_closes_like_the_close_button
  (ui : ResumosUi.Ui) (events : list ResumosUi.event) :
  (forall key : string,
      key <> "Escape" -> ResumosUi.onEsc key ui = ui)
  /\ ResumosUi.modalKey (ResumosUi.onEsc "Escape" ui) = ResumosUi.modalKey ui
  /\ ResumosUi.modalKey (ResumosUi.onClose ui) = None
  /\ ResumosUi.modalView (ResumosUi.run events (ResumosUi.onEsc "Escape" ui))
     = ResumosUi.modalView (ResumosUi.run events (ResumosUi.onClose ui))
  /\ ResumosUi.qtdModo (ResumosUi.run events (ResumosUi.onEsc "Escape" ui))
     = ResumosUi.qtdModo (ResumosUi.run events (ResumosUi.onClose ui))
  /\ ResumosUi.saldoModo (ResumosUi.run events (ResumosUi.onEsc "Escape" ui))
     = ResumosUi.saldoModo (ResumosUi.run events (ResumosUi.onClose ui))
  /\ ResumosUi.serieInscricao
       (ResumosUi.run events (ResumosUi.onEsc "Escape" ui))
     = ResumosUi.serieInscricao
         (ResumosUi.run events (ResumosUi.onClose ui)).
Proof.
  split.
  { intros key Hkey. unfold ResumosUi.onEsc.
    destruct (String.eqb_spec key "Escape"); [contradiction | reflexivity]. }
  split; [reflexivity|]. split; [reflexivity|].
  assert (Hsame : sameButStaleKey
                    (ResumosUi.run events (ResumosUi.onEsc "Escape" ui))
                    (ResumosUi.run events (ResumosUi.onClose ui))).
  { apply run_sameButStaleKey. unfold sameButStaleKey. simpl. auto 10. }
  destruct Hsame as (H1 & H2 & H3 & H4 & H5 & H6).
  split; [|auto].
  unfold ResumosUi.modalView, ResumosUi.Modal, ResumosUi.modalChildren.
  rewrite <- H4, <- H5. destruct H6 as [Hclosed | Hkey].
  - rewrite Hclosed. reflexivity.
  - rewrite Hkey. reflexivity.
Qed.

(** ** [Resumos]: the rows of the pies *)

Section PieRows.

Variable StringToNumber : string -> number.

Lemma pieBy_rows (key : string) (arr : list row) :
  length (Resumos.pieBy StringToNumber key arr) = length arr
  /\ forall (i : nat) (x : row),
      arr !! i = Some x ->
      exists y : row,
        Resumos.pieBy StringToNumber key arr !! i = Some y
        /\ is_Some (y !! "pct")
        /\ forall k : string, k <> "pct" -> y !! k = x !! k.
Proof.
  unfold Resumos.pieBy. split; [apply length_map|].
  intros i x Hi. rewrite list_lookup_fmap, Hi. simpl.
  eexists. split; [reflexivity|]. split.
  - rewrite lookup_insert_eq. eauto.
  - intros k Hk. apply lookup_insert_ne. congruence.
Qed.

(** X7.  A pie has one row per row of its table, in the same order, and
    each row keeps every field of the table row (its name, its count or
    balance); only [pct] is set, replacing a [pct] the row may have
    had. *)
Theorem pies_only_set_pct (quantidadeCdas saldoCdas : list row) :
  (length (Resumos.pieQuantidadePercent StringToNumber quantidadeCdas)
   = length quantidadeCdas
   /\ forall (i : nat) (x : row),
       quantidadeCdas !! i = Some x ->
       exists y : row,
         Resumos.pieQuantidadePercent StringToNumber quantidadeCdas !! i
         = Some y
         /\ is_Some (y !! "pct")
         /\ forall k : string, k <> "pct" -> y !! k = x !! k)
  /\ (length (Resumos.pieSaldoPercent StringToNumber saldoCdas)
      = length saldoCdas
      /\ forall (i : nat) (x : row),
          saldoCdas !! i = Some x ->
          exists y : row,
            Resumos.pieSaldoPercent StringToNumber saldoCdas !! i = Some y
            /\ is_Some (y !! "pct")
            /\ forall k : string, k <> "pct" -> y !! k = x !! k).
Proof.
  split.
  - exact (pieBy_rows "Quantidade" quantidadeCdas).
  - exact (pieBy_rows "Saldo" saldoCdas).
Qed.

Lemma fold_add_NaN {A : Type} (f : A -> number) (l : list A) :
  fold_left (fun s x => add s (f x)) l NaN = NaN.
Proof. induction l as [|x l IH]; simpl; [reflexivity | exact IH]. Qed.

Lemma fold_add_NaN_element {A : Type} (f : A -> number) (l : list A)
  (x : A) (a : number) :
  x ∈ l -> f x = NaN -> fold_left (fun s x => add s (f x)) l a = NaN.
Proof.
  intros Hin Hx. revert a.
  induction Hin as [x l | x y l Hin IH]; intros a; simpl.
  - rewrite Hx. destruct a; apply fold_add_NaN.
  - apply IH, Hx.
Qed.

Lemma pieBy_row_without_value (key : string) (arr : list row) (t : Q)
  (i : nat) (x : row) :
  Resumos.totalBy StringToNumber key arr = Num t ->
  ~ (t == 0)%Q ->
  arr !! i = Some x ->
  x !! key = None ->
  Resumos.pieBy StringToNumber key arr !! i
  = Some (<["pct" := JNumber NaN]> x)
  /\ Resumos.sumPct StringToNumber (Resumos.pieBy StringToNumber key arr)
     = NaN.
Proof.
  intros Htotal Hne Hi Hx.
  assert (Hrow : Resumos.pieBy StringToNumber key arr !! i
                 = Some (<["pct" := JNumber NaN]> x)).
  { unfold Resumos.pieBy. rewrite list_lookup_fmap, Hi, Htotal. simpl.
    destruct (Qeq_bool t 0) eqn:Hz.
    - apply Qeq_bool_iff in Hz. contradiction.
    - simpl. rewrite Hx. reflexivity. }
  split; [exact Hrow|].
  unfold Resumos.sumPct, reduce.
  apply (fold_add_NaN_element _ _ (<["pct" := JNumber NaN]> x)).
  - apply list_elem_of_lookup. exists i. exact Hrow.
  - unfold Resumos.pctOf. rewrite lookup_insert_eq. reflexivity.
Qed.

(** X8.  A row that lacks the field counts as 0 in the total, but is
    divided as [undefined]: when the total is not zero its [pct] is
    [NaN], and the [pct] column of the pie then sums to [NaN]. *)
Theorem pie_row_without_value (quantidadeCdas saldoCdas : list row) :
  (forall (t : Q) (i : nat) (x : row),
      Resumos.qtdTotal StringToNumber quantidadeCdas = Num t ->
      ~ (t == 0)%Q ->
      quantidadeCdas !! i = Some x ->
      x !! "Quantidade" = None ->
      Resumos.pieQuantidadePercent StringToNumber quantidadeCdas !! i
      = Some (<["pct" := JNumber NaN]> x)
      /\ Resumos.sumPct StringToNumber
           (Resumos.pieQuantidadePercent StringToNumber quantidadeCdas)
         = NaN)
  /\ (forall (t : Q) (i : nat) (x : row),
         Resumos.saldoTotal StringToNumber saldoCdas = Num t ->
         ~ (t == 0)%Q ->
         saldoCdas !! i = Some x ->
         x !! "Saldo" = None ->
         Resumos.pieSaldoPercent StringToNumber saldoCdas !! i
         = Some (<["pct" := JNumber NaN]> x)
         /\ Resumos.sumPct StringToNumber
              (Resumos.pieSaldoPercent StringToNumber saldoCdas)
            = NaN).
Proof.
  split; intros t i x.
  - exact (pieBy_row_without_value "Quantidade" quantidadeCdas t i x).
  - exact (pieBy_row_without_value "Saldo" saldoCdas t i x).
Qed.

Lemma totalBy_unreadable (key : string) (arr : list row) (x : row)
  (s : string) :
  x ∈ arr -> x !! key = Some (JString s) -> s <> "" ->
  StringToNumber s = NaN ->
  Resumos.totalBy StringToNumber key arr = NaN
  /\ Resumos.pieBy StringToNumber key arr
     = map (fun y => <["pct" := JNumber (Num 0)]> y) arr.
Proof.
  intros Hin Hx Hs Hnan.
  assert (Htotal : Resumos.totalBy StringToNumber key arr = NaN).
  { unfold Resumos.totalBy, reduce.
    apply (fold_add_NaN_element
             (fun y => Number StringToNumber (orElse (y !! key) zero))
             arr x (Num 0) Hin).
    rewrite Hx. simpl. destruct (String.eqb_spec s ""); [contradiction|].
    simpl. exact Hnan. }
  split; [exact Htotal|]. unfold Resumos.pieBy. rewrite Htotal. reflexivity.
Qed.

(** X9.  One row whose field is a non-empty string that does not read
    as a number makes the total [NaN]; the guard then takes the total
    for absent, and every slice of the pie gets [pct] 0. *)
Theorem pie_unreadable_value (quantidadeCdas saldoCdas : list row) :
  (forall (x : row) (s : string),
      x ∈ quantidadeCdas -> x !! "Quantidade" = Some (JString s) ->
      s <> "" -> StringToNumber s = NaN ->
      Resumos.qtdTotal StringToNumber quantidadeCdas = NaN
      /\ Resumos.pieQuantidadePercent StringToNumber quantidadeCdas
         = map (fun y => <["pct" := JNumber (Num 0)]> y) quantidadeCdas)
  /\ (forall (x : row) (s : string),
         x ∈ saldoCdas -> x !! "Saldo" = Some (JString s) ->
         s <> "" -> StringToNumber s = NaN ->
         Resumos.saldoTotal StringToNumber saldoCdas = NaN
         /\ Resumos.pieSaldoPercent StringToNumber saldoCdas
            = map (fun y => <["pct" := JNumber (Num 0)]> y) saldoCdas).
Proof.
  split; intros x s.
  - exact (totalBy_unreadable "Quantidade" quantidadeCdas x s).
  - exact (totalBy_unreadable "Saldo" saldoCdas x s).
Qed.

End PieRows.

Lemma pie_row_without_value_witness :
  Resumos.sumPct Sample.noNumber
    (Resumos.pieQuantidadePercent Sample.noNumber Cases.sem_quantidade)
  = NaN
  /\ Resumos.sumPct Sample.noNumber
       (Resumos.pieSaldoPercent Sample.noNumber Cases.saldo_sem_valor)
     = NaN.
Proof.
  split.
  - refine (proj2 (proj1 (pie_row_without_value Sample.noNumber
                            Cases.sem_quantidade Cases.saldo_sem_valor)
                     2%Q 1%nat {[ "name" := JString "ISS" ]} _ _ _ _));
      [reflexivity | discriminate | reflexivity | reflexivity].
  - refine (proj2 (proj2 (pie_row_without_value Sample.noNumber
                            Cases.sem_quantidade Cases.saldo_sem_valor)
                     2%Q 1%nat {[ "name" := JString "ISS" ]} _ _ _ _));
      [reflexivity | discriminate | reflexivity | reflexivity].
Defined.

Lemma pie_unreadable_value_witness :
  Resumos.pieQuantidadePercent Sample.noNumber Cases.quantidade_texto
  = map (fun y => <["pct" := JNumber (Num 0)]> y) Cases.quantidade_texto
  /\ Resumos.saldoTotal Sample.noNumber Cases.saldo_texto = NaN.
Proof.
  split.
  - refine (proj2 (proj1 (pie_unreadable_value Sample.noNumber
                            Cases.quantidade_texto Cases.saldo_texto)
                     {[ "name" := JString "ISS";
                        "Quantidade" := JString "muitas" ]} "muitas"
                     _ _ _ _));
      [repeat constructor | reflexivity | discriminate | reflexivity].
  - refine (proj1 (proj2 (pie_unreadable_value Sample.noNumber
                            Cases.quantidade_texto Cases.saldo_texto)
                     {[ "name" := JString "IPTU"; "Saldo" := JString "n/d" ]}
                     "n/d" _ _ _ _));
      [repeat constructor | reflexivity | discriminate | reflexivity].
Defined.

(** ** [Resumos]: the range of the percentages *)

Section PieBounds.

Variable StringToNumber : string -> number.

Lemma sumQ_nonneg (l : list Q) :
  Forall (fun v => (0 <= v)%Q) l -> (0 <= sumQ l)%Q.
Proof.
  induction 1 as [|v l Hv _ IH]; simpl; [apply Qle_refl|].
  rewrite <- (Qplus_0_l 0). apply Qplus_le_compat; assumption.
Qed.

Lemma sumQ_ge_element (l : list Q) (v : Q) :
  Forall (fun v => (0 <= v)%Q) l -> v ∈ l -> (v <= sumQ l)%Q.
Proof.
  intros Hall Hin. induction Hin as [v l | v w l Hin IH]; simpl;
    apply Forall_cons in Hall as [Hhd Htl].
  - rewrite <- (Qplus_0_r v) at 1.
    apply Qplus_le_compat; [apply Qle_refl | apply sumQ_nonneg, Htl].
  - rewrite <- (Qplus_0_l v) at 1.
    apply Qplus_le_compat; [exact Hhd | apply IH, Htl].
Qed.

Lemma pieBy_bounds (key : string) (arr : list row) (t : Q) :
  Resumos.totalBy StringToNumber key arr = Num t ->
  (0 < t)%Q ->
  Forall (nonNegativeAt key) arr ->
  forall y : row,
    y ∈ Resumos.pieBy StringToNumber key arr ->
    exists p : Q,
      y !! "pct" = Some (JNumber (Num p)) /\ (0 <= p)%Q /\ (p <= 100)%Q.
Proof.
  intros Htotal Hpos Hall y Hy.
  apply list_elem_of_lookup in Hy as [i Hi].
  assert (Hlen : (i < length arr)%nat).
  { apply lookup_lt_Some in Hi.
    rewrite (proj1 (pieBy_rows StringToNumber key arr)) in Hi. exact Hi. }
  destruct (lookup_lt_is_Some_2 arr i Hlen) as [x Hx].
  assert (Hcount : nonNegativeAt key x).
  { eapply Forall_lookup_1; eassumption. }
  destruct Hcount as (v & Hv & Hv0).
  rewrite (pieBy_numeric_row StringToNumber key arr t i x v
             Htotal Hpos Hx Hv) in Hi.
  injection Hi as <-. exists (v / t * 100)%Q.
  split; [apply lookup_insert_eq|].
  assert (Hnum : Forall (Resumos.numericAt key) arr).
  { eapply Forall_impl; [exact Hall|]. intros z (w & Hw & _). exists w.
    exact Hw. }
  destruct (fold_total_numeric StringToNumber key arr 0 Hnum)
    as (t' & Ht' & Hsum).
  unfold Resumos.totalBy, reduce in Htotal. rewrite Htotal in Ht'.
  injection Ht' as <-. rewrite Qplus_0_l in Hsum.
  assert (Hle : (v <= t)%Q).
  { rewrite Hsum. apply sumQ_ge_element.
    - apply Forall_fmap. eapply Forall_impl; [exact Hall|].
      intros z (w & Hw & Hw0). unfold Resumos.valueAt. simpl. rewrite Hw.
      exact Hw0.
    - apply list_elem_of_fmap. exists x. split.
      + unfold Resumos.valueAt. rewrite Hv. reflexivity.
      + apply list_elem_of_lookup. exists i. exact Hx. }
  split.
  - apply Qmult_le_0_compat; [|discriminate].
    apply Qle_shift_div_l; [exact Hpos|]. rewrite Qmult_0_l. exact Hv0.
  - apply (Qle_trans _ (1 * 100)); [|discriminate].
    apply Qmult_le_compat_r; [|discriminate].
    apply Qle_shift_div_r; [exact Hpos|]. rewrite Qmult_1_l. exact Hle.
Qed.

(** X10.  Over a table whose rows all hold a number that is not
    negative, and whose total is positive, every [pct] of the pie is a
    number between 0 and 100. *)
Theorem pie_percent_between_0_and_100
  (quantidadeCdas saldoCdas : list row) :
  (forall t : Q,
      Resumos.qtdTotal StringToNumber quantidadeCdas = Num t ->
      (0 < t)%Q ->
      Forall (nonNegativeAt "Quantidade") quantidadeCdas ->
      forall y : row,
        y ∈ Resumos.pieQuantidadePercent StringToNumber quantidadeCdas ->
        exists p : Q,
          y !! "pct" = Some (JNumber (Num p)) /\ (0 <= p)%Q /\ (p <= 100)%Q)
  /\ (forall t : Q,
         Resumos.saldoTotal StringToNumber saldoCdas = Num t ->
         (0 < t)%Q ->
         Forall (nonNegativeAt "Saldo") saldoCdas ->
         forall y : row,
           y ∈ Resumos.pieSaldoPercent StringToNumber saldoCdas ->
           exists p : Q,
             y !! "pct" = Some (JNumber (Num p))
             /\ (0 <= p)%Q /\ (p <= 100)%Q).
Proof.
  split; intros t.
  - exact (pieBy_bounds "Quantidade" quantidadeCdas t).
  - exact (pieBy_bounds "Saldo" saldoCdas t).
Qed.

End PieBounds.

Lemma pie_percent_between_0_and_100_witness :
  (exists p : Q,
      (<["pct" := JNumber (Num (100 # 4))]>
         ({[ "name" := JString "IPTU"; "Quantidade" := JNumber (Num 1) ]}
          : row)) !! "pct"
      = Some (JNumber (Num p))
      /\ (0 <= p)%Q /\ (p <= 100)%Q)
  /\ (exists p : Q,
         (<["pct" := JNumber (Num (30000 # 400))]>
            ({[ "name" := JString "ISS"; "Saldo" := JNumber (Num (75 # 2)) ]}
             : row)) !! "pct"
         = Some (JNumber (Num p))
         /\ (0 <= p)%Q /\ (p <= 100)%Q).
Proof.
  split.
  - apply (proj1 (pie_percent_between_0_and_100 Sample.noNumber
                    Sample.quantidade_cdas Sample.saldo_cdas) 4%Q).
    + reflexivity.
    + reflexivity.
    + repeat constructor; eexists; (split; [reflexivity | discriminate]).
    + apply list_elem_of_lookup. exists 0%nat. reflexivity.
  - apply (proj2 (pie_percent_between_0_and_100 Sample.noNumber
                    Sample.quantidade_cdas Sample.saldo_cdas) (200 # 4)%Q).
    + reflexivity.
    + reflexivity.
    + repeat constructor; eexists; (split; [reflexivity | discriminate]).
    + apply list_elem_of_lookup. exists 1%nat. reflexivity.
Defined.

(** ** [Resumos]: [fetchAll] stores all the summaries or none *)

Lemma promiseAll_failed {A : Type} (rs : list (response A)) :
  Failed ∈ rs -> Resumos.promiseAll rs = Failed.
Proof.
  induction rs as [|r rs IH]; intros Hin; [inversion Hin|].
  destruct r as [a|]; simpl; [|reflexivity].
  rewrite IH; [reflexivity|].
  apply elem_of_cons in Hin as [Heq | Hin]; [discriminate | exact Hin].
Qed.

Lemma promiseAll_ok {A : Type} (rs : list (response A)) (data : list A) :
  rs = map Ok data -> Resumos.promiseAll rs = Ok data.
Proof.
  intros ->. induction data as [|a data IH]; simpl; [reflexivity|].
  rewrite IH. reflexivity.
Qed.

(** X11.  [fetchAll] stores the seven summaries together or not at all.
    When one of the seven requests fails, [fetchAll] rejects and leaves
    every cell as it was, whatever the KPI endpoint would have
    answered.  When the seven arrive, each cell receives the table of
    its own endpoint and [fetchAll] resolves whatever the KPI request
    does; only the KPI cell depends on it. *)
Theorem fetchAll_all_or_nothing (api : Resumos.Api) (st : Resumos.State) :
  ((exists nome : string,
       nome ∈ ResumosData.endpoints /\ Resumos.resumo api nome = Failed) ->
   Resumos.fetchAll api st = (st, Resumos.Rejected))
  /\ (forall tables : string -> list row,
         (forall nome : string,
             nome ∈ ResumosData.endpoints ->
             Resumos.resumo api nome = Ok (tables nome)) ->
         Resumos.fetchAll api st
         = (Resumos.mk (tables "inscricoes") (tables "inscricoes_canceladas")
              (tables "inscricoes_quitadas") (tables "montante_acumulado")
              (tables "quantidade_cdas") (tables "saldo_cdas")
              (tables "distribuicao_cdas")
              match Resumos.kpis_volume_em_cobranca api with
              | Ok totalRes => Resumos.total totalRes
              | Failed => Resumos.qtdEmCobrancaTotal st
              end,
            Resumos.Resolved)).
Proof.
  split.
  - intros (nome & Hin & Hfailed). unfold Resumos.fetchAll.
    rewrite promiseAll_failed; [reflexivity|].
    rewrite <- Hfailed.
    change (Resumos.resumo api nome
            ∈ map (Resumos.resumo api) ResumosData.endpoints).
    apply list_elem_of_fmap. exists nome. split; [reflexivity | exact Hin].
  - intros tables Hok. unfold Resumos.fetchAll.
    rewrite (promiseAll_ok _ (map tables ResumosData.endpoints)).
    + simpl. destruct (Resumos.kpis_volume_em_cobranca api); reflexivity.
    + simpl. rewrite !Hok by (unfold ResumosData.endpoints; set_solver).
      reflexivity.
Qed.

Lemma fetchAll_all_or_nothing_witness :
  Resumos.fetchAll Cases.api_sem_saldo Resumos.initial
  = (Resumos.initial, Resumos.Rejected)
  /\ snd (Resumos.fetchAll (Resumos.apiOf Sample.tables Failed)
            Resumos.initial)
     = Resumos.Resolved.
Proof.
  split.
  - apply (proj1 (fetchAll_all_or_nothing Cases.api_sem_saldo
                    Resumos.initial)).
    exists "saldo_cdas". split; [|reflexivity].
    unfold ResumosData.endpoints. set_solver.
  - rewrite (proj2 (fetchAll_all_or_nothing
                      (Resumos.apiOf Sample.tables Failed) Resumos.initial)
               Sample.tables); [reflexivity|].
    intros nome _. reflexivity.
Defined.

(** ** [Resumos]: colours and the lines of the Pareto chart *)

(** X12.  Every cell and every line gets a colour: the index into
    [COLORS] is always in range.  The colours repeat with period six,
    and the first six indices get six different colours, so a chart
    with at most six categories never uses a colour twice. *)
Theorem colorAt_cycles (index : nat) :
  is_Some (ResumosData.colorAt index)
  /\ ResumosData.colorAt (index + 6) = ResumosData.colorAt index
  /\ (forall other : nat,
         (index < 6)%nat -> (other < 6)%nat ->
         ResumosData.colorAt index = ResumosData.colorAt other ->
         index = other).
Proof.
  unfold ResumosData.colorAt.
  split; [|split].
  - apply lookup_lt_is_Some_2. apply Nat.mod_upper_bound. discriminate.
  - f_equal. change (length ResumosData.COLORS) with 6%nat.
    rewrite <- (Nat.mul_1_l 6) at 1. apply Nat.Div0.mod_add.
  - intros other Hi Ho.
    change (length ResumosData.COLORS) with 6%nat.
    rewrite !Nat.mod_small by assumption.
    do 6 (destruct index as [|index]; [
      do 6 (destruct other as [|other]; [
        first [reflexivity | discriminate] |]); lia |]).
    lia.
Qed.

Section ParetoKeys.

Variable ObjectKeys : row -> list string.

(** [Object.keys] lists the properties an object has. *)
Hypothesis ObjectKeys_spec :
  forall (r : row) (k : string), k ∈ ObjectKeys r <-> is_Some (r !! k).

(** X13.  The Pareto chart draws a line for a key exactly when the
    first row of the table has that key and it is not ['Percentual'];
    keys that only later rows have get no line, and an empty table
    gives no line. *)
Theorem montanteKeys_from_first_row (montanteAcumulado : list row) :
  ResumosData.montanteKeys ObjectKeys [] = []
  /\ forall (first : row) (rest : list row) (k : string),
      montanteAcumulado = first :: rest ->
      k ∈ ResumosData.montanteKeys ObjectKeys montanteAcumulado
      <-> (k <> "Percentual" /\ is_Some (first !! k)).
Proof.
  split; [reflexivity|].
  intros first rest k ->. unfold ResumosData.montanteKeys.
  rewrite list_elem_of_filter, ObjectKeys_spec, negb_true_iff.
  split; intros [Hk Hfirst]; (split; [|exact Hfirst]).
  - intros ->. rewrite String.eqb_refl in Hk. discriminate.
  - destruct (String.eqb_spec k "Percentual"); [contradiction | reflexivity].
Qed.

End ParetoKeys.

Lemma keysOf_spec (r : row) (k : string) :
  k ∈ Cases.keysOf r <-> is_Some (r !! k).
Proof.
  unfold Cases.keysOf. rewrite list_elem_of_fmap. split.
  - intros ([k' v] & -> & Hin). apply elem_of_map_to_list in Hin. eauto.
  - intros [v Hv]. exists (k, v). split; [reflexivity|].
    apply elem_of_map_to_list, Hv.
Qed.

Lemma montanteKeys_from_first_row_witness :
  "IPTU" ∈ ResumosData.montanteKeys Cases.keysOf Cases.montante
  /\ ~ "ISS" ∈ ResumosData.montanteKeys Cases.keysOf Cases.montante
  /\ ~ "Percentual" ∈ ResumosData.montanteKeys Cases.keysOf Cases.montante.
Proof.
  pose proof (proj2 (montanteKeys_from_first_row Cases.keysOf keysOf_spec
                       Cases.montante)) as Hkeys.
  split; [|split].
  - eapply Hkeys; [reflexivity|]. split; [discriminate | eexists; reflexivity].
  - intros Hin. eapply Hkeys in Hin as [_ [v Hv]]; [|reflexivity].
    discriminate Hv.
  - intros Hin. eapply Hkeys in Hin as [Hne _]; [|reflexivity].
    apply Hne. reflexivity.
Defined.

(** ** [App]: the theme *)

Lemma storedTheme_not_empty (storage : gmap string string) :
  App.storedTheme storage <> "".
Proof.
  unfold App.storedTheme. destruct (storage !! "theme") as [s|];
    [|discriminate].
  destruct (String.eqb_spec s ""); [discriminate | assumption].
Qed.

Lemma step_themeStored (storage : gmap string string)
  (w : App.State * App.Browser) (e : App.event) :
  themeStored storage w -> themeStored storage (App.step w e).
Proof.
  intros (Hstored & Hattr & Hne & Hother). unfold App.step, themeStored.
  destruct (String.eqb_spec (App.theme (fst w))
              (App.theme (App.update e (fst w)))) as [Heq | Hchanged].
  - simpl. rewrite <- Heq. auto.
  - simpl. rewrite lookup_insert_eq. repeat split.
    + destruct e; simpl in *; try contradiction.
      destruct (String.eqb (App.theme (fst w)) "dark"); discriminate.
    + intros k Hk. rewrite lookup_insert_ne by congruence. apply Hother, Hk.
Qed.

(** X14.  The theme survives a reload.  After the first render and any
    sequence of clicks, [localStorage] holds the current theme under
    ['theme'], the attribute [data-theme] of the document is the
    current theme, every other entry of [localStorage] is as it was,
    and a page that starts from that storage starts with the current
    theme. *)
Theorem theme_survives_reload (storage : gmap string string)
  (attribute : option string) (events : list App.event) :
  let w := App.run events (App.mount storage attribute) in
  App.localStorage (snd w) !! "theme" = Some (App.theme (fst w))
  /\ App.dataTheme (snd w) = Some (App.theme (fst w))
  /\ App.theme (App.initial (App.localStorage (snd w))) = App.theme (fst w)
  /\ forall k : string,
      k <> "theme" -> App.localStorage (snd w) !! k = storage !! k.
Proof.
  cbv zeta.
  assert (Hinv : themeStored storage
                   (App.run events (App.mount storage attribute))).
  { unfold App.run.
    assert (H0 : themeStored storage (App.mount storage attribute)).
    { unfold themeStored, App.mount. simpl. rewrite lookup_insert_eq.
      repeat split; [apply storedTheme_not_empty|].
      intros k Hk. apply lookup_insert_ne. congruence. }
    revert H0. generalize (App.mount storage attribute).
    induction events as [|e events IH]; intros w Hw; [exact Hw|].
    simpl. apply IH, step_themeStored, Hw. }
  destruct Hinv as (Hstored & Hattr & Hne & Hother).
  repeat split; try assumption.
  simpl. unfold App.storedTheme. rewrite Hstored.
  destruct (String.eqb_spec
              (App.theme (fst (App.run events (App.mount storage attribute))))
              ""); [contradiction | reflexivity].
Qed.

(** X15.  The theme button always leaves the theme ['dark'] or
    ['light']; between these two it is an involution, and from any
    other stored theme the first click gives ['dark']. *)
Theorem toggleTheme_dark_light (st : App.State) :
  (App.theme (App.toggleTheme st) = "dark"
   \/ App.theme (App.toggleTheme st) = "light")
  /\ (App.theme st = "dark" \/ App.theme st = "light" ->
      App.toggleTheme (App.toggleTheme st) = st)
  /\ (App.theme st <> "dark" -> App.theme (App.toggleTheme st) = "dark")
  /\ App.tab (App.toggleTheme st) = App.tab st.
Proof.
  destruct st as [t th ok]. unfold App.toggleTheme. simpl.
  split; [|split; [|split]].
  - destruct (String.eqb th "dark"); auto.
  - intros [-> | ->]; reflexivity.
  - intros Hne. destruct (String.eqb_spec th "dark");
      [contradiction | reflexivity].
  - reflexivity.
Qed.

(** ** The formatters of the KPI cards *)

Section Magnitude.

Variable nf : number -> string.
Variable formatCurrency : number -> string.
Variable formatPlain : number -> string.

Lemma Qle_bool_false_lt (a b : Q) : Qle_bool a b = false -> (b < a)%Q.
Proof.
  intros H. apply Qnot_le_lt. intros Hle.
  apply Qle_bool_iff in Hle. congruence.
Qed.

Lemma two_millions (a : Q) :
  Qle_bool 2 (a / 1000000) = Qle_bool 2000000 a.
Proof.
  apply eq_true_iff_eq. rewrite !Qle_bool_iff. split; intros H.
  - apply (Qmult_le_r _ _ (/ 1000000)); [reflexivity|].
    apply (Qle_trans _ 2); [discriminate | exact H].
  - apply Qle_shift_div_l; [reflexivity|].
    apply (Qle_trans _ 2000000); [discriminate | exact H].
Qed.

Lemma scaled_bounds (a unit next : Q) :
  (0 < unit)%Q -> (unit <= a)%Q -> (a < next)%Q ->
  (next == 1000 * unit)%Q ->
  (1 <= a / unit)%Q /\ (a / unit < 1000)%Q.
Proof.
  intros Hunit Hlo Hhi Hnext. split.
  - apply Qle_shift_div_l; [exact Hunit|]. rewrite Qmult_1_l. exact Hlo.
  - apply Qlt_shift_div_r; [exact Hunit|]. rewrite <- Hnext. exact Hhi.
Qed.

(** X16.  Both magnitude formatters pick the largest of the units mil,
    milhão (milhões from two millions on), bilhões and trilhões that the
    absolute value reaches, print the absolute value divided by that
    unit, which is then at least 1 and, below 10^15, less than 1000,
    and put ['-'] in front exactly for a negative value; the currency
    formatter differs from the plain one only by ['R$ '] after the
    sign.  Below 1000, and for [NaN], they hand the value as it is to
    the plain [Intl] formatters. *)
Theorem magnitude_formatters (v : Q) :
  let sign := if Qle_bool 0 v then "" else "-" in
  (Format.formatCurrencyMagnitude nf formatCurrency NaN = formatCurrency NaN
   /\ Format.formatNumberMagnitude nf formatPlain NaN = formatPlain NaN)
  /\
  match Format.unitOf (Qabs v) with
  | Some (unit, word) =>
      Format.formatCurrencyMagnitude nf formatCurrency (Num v)
      = sign +:+ "R$ " +:+ nf (Num (Qabs v / unit)) +:+ " " +:+ word
      /\ Format.formatNumberMagnitude nf formatPlain (Num v)
         = sign +:+ nf (Num (Qabs v / unit)) +:+ " " +:+ word
      /\ (1 <= Qabs v / unit)%Q
      /\ ((Qabs v < 1000000000000000)%Q -> (Qabs v / unit < 1000)%Q)
  | None =>
      (Qabs v < 1000)%Q
      /\ Format.formatCurrencyMagnitude nf formatCurrency (Num v)
         = formatCurrency (Num v)
      /\ Format.formatNumberMagnitude nf formatPlain (Num v)
         = formatPlain (Num v)
  end.
Proof.
  cbv zeta. split; [split; reflexivity|].
  unfold Format.unitOf, Format.formatCurrencyMagnitude,
    Format.formatNumberMagnitude, Format.abs, Format.lt, Format.ge.
  change (div (Num (Qabs v)) (Num 1000000000000))
    with (Num (Qabs v / 1000000000000)).
  change (div (Num (Qabs v)) (Num 1000000000))
    with (Num (Qabs v / 1000000000)).
  change (div (Num (Qabs v)) (Num 1000000)) with (Num (Qabs v / 1000000)).
  change (div (Num (Qabs v)) (Num 1000)) with (Num (Qabs v / 1000)).
  cbv beta iota. rewrite two_millions.
  destruct (Qle_bool 0 v); cbv beta iota delta [negb].
  all: destruct (Qle_bool 1000000000000 (Qabs v)) eqn:H12;
    [ split; [reflexivity|]; split; [reflexivity|];
      apply Qle_bool_iff in H12; split;
      [ apply Qle_shift_div_l; [reflexivity|]; rewrite Qmult_1_l; exact H12
      | intros Hhi; apply Qlt_shift_div_r; [reflexivity | exact Hhi] ]
    | apply Qle_bool_false_lt in H12 ].
  all: destruct (Qle_bool 1000000000 (Qabs v)) eqn:H9;
    [ split; [reflexivity|]; split; [reflexivity|];
      apply Qle_bool_iff in H9; split; [|intros _];
      apply (scaled_bounds (Qabs v) 1000000000 1000000000000);
      (reflexivity || assumption)
    | apply Qle_bool_false_lt in H9 ].
  all: destruct (Qle_bool 2000000 (Qabs v)) eqn:H2;
    [ apply Qle_bool_iff in H2;
      assert (H6 : Qle_bool 1000000 (Qabs v) = true)
        by (apply Qle_bool_iff; eapply Qle_trans; [|exact H2]; discriminate);
      rewrite H6; split; [reflexivity|]; split; [reflexivity|];
      apply Qle_bool_iff in H6; split; [|intros _];
      apply (scaled_bounds (Qabs v) 1000000 1000000000);
      (reflexivity || assumption)
    | ].
  all: destruct (Qle_bool 1000000 (Qabs v)) eqn:H6;
    [ split; [reflexivity|]; split; [reflexivity|];
      apply Qle_bool_iff in H6; split; [|intros _];
      apply (scaled_bounds (Qabs v) 1000000 1000000000);
      (reflexivity || assumption)
    | apply Qle_bool_false_lt in H6 ].
  all: destruct (Qle_bool 1000 (Qabs v)) eqn:H3;
    [ split; [reflexivity|]; split; [reflexivity|];
      apply Qle_bool_iff in H3; split; [|intros _];
      apply (scaled_bounds (Qabs v) 1000 1000000);
      (reflexivity || assumption)
    | apply Qle_bool_false_lt in H3 ].
  all: split; [exact H3|]; split; reflexivity.
Qed.

End Magnitude.

(** ** [BuscaCDA]: which changes send a request *)


Lemma effect_loads (server : Params.t -> response SearchBody.t)
  (old new : Busca.State) (data : SearchBody.t) :
  Busca.depsChanged old new = true ->
  server (Busca.params new) = Ok data ->
  Busca.effect server old new
  = Busca.setLoading false
      (Busca.setTotal (SearchBody.total data)
         (Busca.setItems (SearchBody.items data)
            (Busca.setLoading true new))).
Proof.
  intros Hdeps Hok. unfold Busca.effect, Busca.buscar.
  rewrite Hdeps, Hok. reflexivity.
Qed.

Lemma filter_change_sends_no_request_aux
  (server : Params.t -> response SearchBody.t) (c : BuscaForm.change)
  (st : Busca.State) :
  BuscaForm.isFilter c = true ->
  BuscaForm.handleChange server c st = BuscaForm.apply c st
  /\ Busca.loading (BuscaForm.handleChange server c st) = Busca.loading st.
Proof.
  intros Hfilter.
  assert (Hsame : BuscaForm.handleChange server c st = BuscaForm.apply c st).
  { unfold BuscaForm.handleChange, Busca.effect, Busca.depsChanged.
    destruct c as [v|v|v|b v|v|v]; try discriminate; simpl;
      rewrite bool_decide_eq_true_2 by auto; reflexivity. }
  rewrite Hsame. split; [reflexivity|].
  destruct c as [v|v|v|b v|v|v]; try discriminate; reflexivity.
Qed.

(** X17.  Typing in the search box, selecting naturezas or situações and
    editing a numeric bound send no request: the state after the change
    does not depend on the service, and the table, the total and the
    page stay those of the last answer until 'Buscar' is pressed or the
    order, the page or the page size changes. *)
Theorem filter_change_sends_no_request
  (server : Params.t -> response SearchBody.t) (c : BuscaForm.change)
  (st : Busca.State) :
  BuscaForm.isFilter c = true ->
  BuscaForm.handleChange server c st = BuscaForm.apply c st
  /\ Busca.items (BuscaForm.handleChange server c st) = Busca.items st
  /\ Busca.total (BuscaForm.handleChange server c st) = Busca.total st
  /\ Busca.page (BuscaForm.handleChange server c st) = Busca.page st
  /\ Busca.loading (BuscaForm.handleChange server c st) = Busca.loading st.
Proof.
  intros Hfilter.
  destruct (filter_change_sends_no_request_aux server c st Hfilter)
    as [Hsame _].
  rewrite Hsame. split; [reflexivity|].
  destruct c as [v|v|v|b v|v|v]; try discriminate; repeat split.
Qed.

Lemma filter_change_sends_no_request_witness :
  Busca.items
    (BuscaForm.handleChange Sample.server (BuscaForm.ChangeQ "zzz")
       Sample.afterMount)
  = Busca.items Sample.afterMount
  /\ Busca.total
       (BuscaForm.handleChange Sample.server
          (BuscaForm.ChangeBound BuscaForm.MinAno (Busca.Filled 2010))
          Sample.afterMount)
     = 45.
Proof.
  split.
  - apply (filter_change_sends_no_request Sample.server
             (BuscaForm.ChangeQ "zzz") Sample.afterMount).
    reflexivity.
  - rewrite (proj1 (proj2 (proj2 (filter_change_sends_no_request
               Sample.server
               (BuscaForm.ChangeBound BuscaForm.MinAno (Busca.Filled 2010))
               Sample.afterMount eq_refl)))).
    reflexivity.
Defined.

(** X18.  Choosing another sort field or direction sends one request,
    for the new order and with the filters as they are in the form at
    that moment, whether or not 'Buscar' was pressed for them; its
    answer replaces the items and the total, and the page stays where
    it was (it is not reset to 1).  Choosing the order that is already
    selected sends nothing. *)
Theorem order_change_reloads_same_page
  (server : Params.t -> response SearchBody.t) (c : BuscaForm.change)
  (st : Busca.State) (data : SearchBody.t) :
  BuscaForm.isFilter c = false ->
  (Busca.depsChanged st (BuscaForm.apply c st) = false ->
   BuscaForm.handleChange server c st = BuscaForm.apply c st)
  /\ (Busca.depsChanged st (BuscaForm.apply c st) = true ->
      server (Busca.params (BuscaForm.apply c st)) = Ok data ->
      Busca.items (BuscaForm.handleChange server c st)
      = SearchBody.items data
      /\ Busca.total (BuscaForm.handleChange server c st)
         = SearchBody.total data
      /\ Busca.loading (BuscaForm.handleChange server c st) = false
      /\ Busca.page (BuscaForm.handleChange server c st) = Busca.page st
      /\ Params.page (Busca.params (BuscaForm.apply c st)) = Busca.page st
      /\ Params.q (Busca.params (BuscaForm.apply c st))
         = Params.q (Busca.params st)
      /\ Params.natureza (Busca.params (BuscaForm.apply c st))
         = Params.natureza (Busca.params st)
      /\ Params.situacao (Busca.params (BuscaForm.apply c st))
         = Params.situacao (Busca.params st)).
Proof.
  intros Horder. split.
  - intros Hsame. unfold BuscaForm.handleChange, Busca.effect.
    rewrite Hsame. reflexivity.
  - intros Hdeps Hok. unfold BuscaForm.handleChange.
    rewrite (effect_loads server st _ data Hdeps Hok).
    destruct c as [v|v|v|b v|v|v]; try discriminate; repeat split.
Qed.

Lemma order_change_reloads_same_page_witness :
  Busca.total
    (BuscaForm.handleChange Sample.server (BuscaForm.ChangeSortDir asc)
       (Busca.setPage 2 Sample.afterMount))
  = 45
  /\ Busca.page
       (BuscaForm.handleChange Sample.server (BuscaForm.ChangeSortDir asc)
          (Busca.setPage 2 Sample.afterMount))
     = 2.
Proof.
  destruct (proj2 (order_change_reloads_same_page Sample.server
                     (BuscaForm.ChangeSortDir asc)
                     (Busca.setPage 2 Sample.afterMount)
                     (SearchBody.mk [] 45) eq_refl) eq_refl eq_refl)
    as (_ & Htotal & _ & Hpage & _).
  split; [exact Htotal | exact Hpage].
Defined.

(** ** [BuscaCDA]: a request that fails, and the table *)

Section Table.

Variable formatCurrency : option JsValue -> string.
Variable toFixed3 : number -> string.

(** X19.  [buscar] has no [catch]: when its request fails, [loading]
    stays [true] and the items and the total stay those of the last
    answer, so the table shows 'Carregando...' instead of them; and it
    keeps showing it while the filters are edited, because editing
    sends no request. *)
Theorem failed_request_leaves_loading
  (server : Params.t -> response SearchBody.t) (closure st : Busca.State) :
  server (Busca.params closure) = Failed ->
  Busca.buscar server closure st = Busca.setLoading true st
  /\ BuscaForm.tbody formatCurrency toFixed3 (Busca.buscar server closure st)
     = Some BuscaForm.Carregando
  /\ forall c : BuscaForm.change,
      BuscaForm.isFilter c = true ->
      BuscaForm.tbody formatCurrency toFixed3
        (BuscaForm.handleChange server c (Busca.buscar server closure st))
      = Some BuscaForm.Carregando.
Proof.
  intros Hfailed.
  assert (Heq : Busca.buscar server closure st = Busca.setLoading true st).
  { unfold Busca.buscar. rewrite Hfailed. reflexivity. }
  rewrite Heq. split; [reflexivity|]. split; [reflexivity|].
  intros c Hc.
  destruct (filter_change_sends_no_request_aux server c
              (Busca.setLoading true st) Hc) as (_ & Hloading).
  unfold BuscaForm.tbody. rewrite Hloading. reflexivity.
Qed.

(** X20.  While [loading] holds, the table is the loading row whatever
    the items are.  Otherwise the table can be rendered exactly when
    the [score] of every item is a number ([row.score.toFixed] throws
    for an item whose [score] is missing, [null] or a string), and it
    then has one row per item, in the order of the items, with the
    situação cell of each item. *)
Theorem tbody_needs_numeric_scores (st : Busca.State) :
  (Busca.loading st = true ->
   BuscaForm.tbody formatCurrency toFixed3 st = Some BuscaForm.Carregando)
  /\ (Busca.loading st = false ->
      (is_Some (BuscaForm.tbody formatCurrency toFixed3 st)
       <-> Forall (fun r => exists n : number, r !! "score" = Some (JNumber n))
             (Busca.items st))
      /\ forall body : BuscaForm.Tbody,
          BuscaForm.tbody formatCurrency toFixed3 st = Some body ->
          exists rows : list BuscaForm.Linha,
            body = BuscaForm.Linhas rows
            /\ map BuscaForm.situacao rows
               = map Busca.situacaoCell (Busca.items st)
            /\ map BuscaForm.numCDA rows
               = map (fun r => r !! "numCDA") (Busca.items st)).
Proof.
  unfold BuscaForm.tbody. split; [intros ->; reflexivity|].
  intros ->. split.
  - rewrite fmap_is_Some, mapM_is_Some. apply Forall_iff. intros r.
    unfold compose, BuscaForm.renderRow.
    destruct (r !! "score") as [[|n|s]|]; split;
      try (intros [x Hx]; discriminate); eauto.
  - intros body Hbody.
    destruct (mapM (BuscaForm.renderRow formatCurrency toFixed3)
                (Busca.items st)) as [rows|] eqn:Hrows; [|discriminate].
    injection Hbody as <-. exists rows. split; [reflexivity|].
    apply mapM_Some in Hrows.
    induction Hrows as [|r l items rows Hr _ IH]; [split; reflexivity|].
    simpl. destruct IH as [-> ->].
    unfold BuscaForm.renderRow in Hr.
    destruct (r !! "score") as [[|n|s]|]; try discriminate.
    injection Hr as <-. split; reflexivity.
Qed.

End Table.

Lemma failed_request_leaves_loading_witness :
  BuscaForm.tbody Cases.semTexto Cases.semDigitos
    (Busca.mount Cases.server_fora)
  = Some BuscaForm.Carregando
  /\ BuscaForm.tbody Cases.semTexto Cases.semDigitos
       (BuscaForm.handleChange Cases.server_fora (BuscaForm.ChangeQ "a")
          (Busca.mount Cases.server_fora))
     = Some BuscaForm.Carregando.
Proof.
  destruct (failed_request_leaves_loading Cases.semTexto Cases.semDigitos
              Cases.server_fora Busca.initial Busca.initial eq_refl)
    as (_ & Hbody & Hedit).
  split; [exact Hbody|]. apply Hedit. reflexivity.
Defined.

Lemma tbody_needs_numeric_scores_witness :
  BuscaForm.tbody Cases.semTexto Cases.semDigitos
    (Busca.mount Cases.server_sem_score)
  = None.
Proof.
  destruct (BuscaForm.tbody Cases.semTexto Cases.semDigitos
              (Busca.mount Cases.server_sem_score)) as [body|] eqn:Hbody;
    [|reflexivity].
  exfalso.
  assert (Hsome : is_Some
                    (BuscaForm.tbody Cases.semTexto Cases.semDigitos
                       (Busca.mount Cases.server_sem_score))) by eauto.
  apply (proj1 (proj2 (tbody_needs_numeric_scores Cases.semTexto
                         Cases.semDigitos
                         (Busca.mount Cases.server_sem_score)) eq_refl))
    in Hsome.
  apply Forall_cons in Hsome as [_ Hsecond].
  apply Forall_cons in Hsecond as [[n Hn] _]. discriminate Hn.
Defined.

(** ** [BuscaCDA]: the table follows the controls *)





(** ** [BuscaCDA]: stepping through the pages *)



(** X23.  For a positive page size and a positive total, the pages
    [1 .. totalPages] are exactly those that hold records: the records
    before the last page are fewer than the total, and [totalPages]
    pages hold them all. *)
Theorem totalPages_covers_total (st : Busca.State) :
  0 < Busca.pageSize st -> 0 < Busca.total st ->
  (Busca.totalPages st - 1) * Busca.pageSize st < Busca.total st
  /\ Busca.total st <= Busca.totalPages st * Busca.pageSize st.
Proof.
  intros Hsize Htotal.
  pose proof (totalPages_ge_1 st) as Hge.
  split.
  - destruct (Z.eq_dec (Busca.totalPages st) 1) as [-> | Hne]; [lia|].
    apply Z.nle_gt. intros Hle.
    apply (totalPages_least st (Busca.totalPages st - 1)) in Hle; lia.
  - apply (totalPages_least st (Busca.totalPages st)); lia.
Qed.

Lemma totalPages_covers_total_witness :
  (Busca.totalPages Sample.afterMount - 1) * 20 < 45
  /\ 45 <= Busca.totalPages Sample.afterMount * 20.
Proof.
  apply (totalPages_covers_total Sample.afterMount); reflexivity.
Defined.

(** ** [BuscaCDA]: the situação cell of any value *)

(** X24.  The situação cell is 'Cancelada' exactly for the number -1
    and 'Em cobrança' exactly for the number 0; every other value, the
    number 1 like a missing or [null] field, [NaN], another number or
    a string such as ['0'], is shown as 'Quitada'. *)
Theorem situacaoCell_of_any_value (r : row) :
  (Busca.situacaoCell r = "Cancelada"
   <-> exists v : Q,
       r !! "agrupamento_situacao" = Some (JNumber (Num v))
       /\ (v == -1)%Q)
  /\ (Busca.situacaoCell r = "Em cobrança"
      <-> exists v : Q,
          r !! "agrupamento_situacao" = Some (JNumber (Num v))
          /\ (v == 0)%Q)
  /\ ((forall v : Q,
          r !! "agrupamento_situacao" = Some (JNumber (Num v)) ->
          ~ (v == -1)%Q /\ ~ (v == 0)%Q) ->
      Busca.situacaoCell r = "Quitada").
Proof.
  unfold Busca.situacaoCell, strictEqNum.
  destruct (r !! "agrupamento_situacao") as [[|[|v]|s]|];
    try (split; [|split]; [split; [discriminate|]; intros (v & Hv & _);
                           discriminate
                          |split; [discriminate|]; intros (v & Hv & _);
                           discriminate
                          |reflexivity]).
  destruct (Qeq_bool v (-1)) eqn:Hm.
  - apply Qeq_bool_iff in Hm. split; [|split].
    + split; [eauto|reflexivity].
    + split; [discriminate|]. intros (w & Hw & Hzero).
      injection Hw as <-. rewrite Hm in Hzero. discriminate.
    + intros Hnot. destruct (Hnot v eq_refl) as [H _]. contradiction.
  - apply Qeq_bool_neq in Hm. destruct (Qeq_bool v 0) eqn:Hz.
    + apply Qeq_bool_iff in Hz. split; [|split].
      * split; [discriminate|]. intros (w & Hw & Hminus).
        injection Hw as <-. contradiction.
      * split; [eauto|reflexivity].
      * intros Hnot. destruct (Hnot v eq_refl) as [_ H]. contradiction.
    + apply Qeq_bool_neq in Hz. split; [|split].
      * split; [discriminate|]. intros (w & Hw & Hminus).
        injection Hw as <-. contradiction.
      * split; [discriminate|]. intros (w & Hw & Hzero).
        injection Hw as <-. contradiction.
      * reflexivity.
Qed.

(** ** [BuscaCDA]: the request determines the form *)

Lemma blankToUndefined_inj (x y : Busca.numberOrBlank) :
  Busca.blankToUndefined x = Busca.blankToUndefined y -> x = y.
Proof. destruct x, y; simpl; congruence. Qed.

Lemma emptyToUndefined_inj (l k : list string) :
  (if (length l =? 0)%nat then None else Some l)
  = (if (length k =? 0)%nat then None else Some k) ->
  l = k.
Proof.
  destruct l, k; simpl; congruence.
Qed.

(** X25.  The request keeps everything the form holds: two states that
    build the same [params] have the same text, selections, bounds,
    order, page and page size.  In particular a bound of 0 is sent as 0
    and is not taken for a blank one, and no filled dimension is ever
    dropped from the request. *)
Theorem params_determine_the_form (st1 st2 : Busca.State) :
  Busca.params st1 = Busca.params st2 ->
  Busca.q st1 = Busca.q st2
  /\ Busca.natureza st1 = Busca.natureza st2
  /\ Busca.situacao st1 = Busca.situacao st2
  /\ (Busca.minAno st1, Busca.maxAno st1) = (Busca.minAno st2, Busca.maxAno st2)
  /\ (Busca.minSaldo st1, Busca.maxSaldo st1)
     = (Busca.minSaldo st2, Busca.maxSaldo st2)
  /\ (Busca.minScore st1, Busca.maxScore st1)
     = (Busca.minScore st2, Busca.maxScore st2)
  /\ (Busca.sortBy st1, Busca.sortDir st1)
     = (Busca.sortBy st2, Busca.sortDir st2)
  /\ (Busca.page st1, Busca.pageSize st1)
     = (Busca.page st2, Busca.pageSize st2).
Proof.
  unfold Busca.params. intros Heq.
  injection Heq as Hq Hn Hs Ha Ha' Hb Hb' Hc Hc' Hby Hdir Hpage Hsize.
  apply emptyToUndefined_inj in Hn, Hs.
  apply blankToUndefined_inj in Ha, Ha', Hb, Hb', Hc, Hc'.
  assert (Hq' : Busca.q st1 = Busca.q st2).
  { destruct (String.eqb_spec (Busca.q st1) "");
      destruct (String.eqb_spec (Busca.q st2) ""); congruence. }
  repeat split; congruence.
Qed.

Lemma params_determine_the_form_witness :
  Busca.q (Busca.setTotal 7 Busca.initial) = ""
  /\ (Busca.minAno (Busca.setTotal 7 Busca.initial),
      Busca.maxAno (Busca.setTotal 7 Busca.initial))
     = (Busca.Blank, Busca.Blank).
Proof.
  destruct (params_determine_the_form (Busca.setTotal 7 Busca.initial)
              Busca.initial eq_refl) as (Hq & _ & _ & Hano & _).
  split; [exact Hq | exact Hano].
Defined.

(** ** [BuscaCDA]: the options of the situação filter *)

(** X26.  The options of the situação filter are the labels of the
    situação column: whatever a row holds, its cell shows one of the
    three options, and each option is the cell of some row. *)
Theorem situacoes_are_the_cells :
  (forall r : row, Busca.situacaoCell r ∈ Busca.situacoes)
  /\ forall label : string,
      label ∈ Busca.situacoes ->
      exists r : row, Busca.situacaoCell r = label.
Proof.
  split.
  - intros r. unfold Busca.situacaoCell, Busca.situacoes.
    destruct (strictEqNum _ _); [set_solver|].
    destruct (strictEqNum _ _); set_solver.
  - intros label Hin. unfold Busca.situacoes in Hin.
    rewrite !elem_of_cons, elem_of_nil in Hin.
    destruct Hin as [-> | [-> | [-> | []]]].
    + exists {[ "agrupamento_situacao" := JNumber (Num (-1)) ]}. reflexivity.
    + exists {[ "agrupamento_situacao" := JNumber (Num 0) ]}. reflexivity.
    + exists {[ "agrupamento_situacao" := JNumber (Num 1) ]}. reflexivity.
Qed.
